(** * Cloud resource cleanup ([admin/cleanup.py]): planner, executor, exit signal

    A shallow embedding of the planner of [admin/cleanup.py] and of the
    functions that consume its plans.

    Modelling conventions.
    - A Python call either returns a value or raises: [result A].
    - [volume.extra] and [node.extra] are dictionaries from strings to
      Python values: [gmap string pyval].
    - A [datetime] is its wall clock in microseconds together with its
      optional UTC offset (absent for a naive datetime); a [timedelta] is a
      number of microseconds in [Z].  Subtracting a timedelta from a
      datetime raises [OverflowError] when the result leaves the years
      1 to 9999.
    - [dateutil.parser.parse] and [uuid.UUID] are library code: the
      development is parametric in them (the class [Library]), and concrete
      readers for the ISO-8601 and canonical hexadecimal forms are given for
      the examples.
    - The clock ([datetime.now]) and the provider listings are inputs.
    - [twisted.python.log.err] only appends to the log; it is modelled where
      the log is observed (the executor) and left out of the classifier. *)

From Stdlib Require Import ZArith List String Ascii Bool Lia Permutation.
From stdpp Require Import base gmap strings.
Import ListNotations.

Local Open Scope string_scope.
Local Open Scope Z_scope.

(** ** Exceptions and results *)

Inductive exn : Type :=
| KeyError
| TypeError
| ValueError
| AttributeError
| OverflowError
| SystemExit (code : Z)
| ProviderError (msg : string).

Inductive result (A : Type) : Type :=
| Ok (a : A)
| Raise (e : exn).

Arguments Ok {A} a.
Arguments Raise {A} e.

Definition bind {A B : Type} (m : result A) (k : A -> result B) : result B :=
  match m with
  | Ok a => k a
  | Raise e => Raise e
  end.

Notation "'let?' x ':=' m 'in' k" := (bind m (fun x => k))
  (at level 10, x name, m at level 200, k at level 200).

(** [try: m except KeyError: h] *)
Definition except_KeyError {A : Type} (m : result A) (h : result A) : result A :=
  match m with
  | Raise KeyError => h
  | _ => m
  end.

(** [try: m except: h] (a bare [except] catches every exception). *)
Definition except_all {A : Type} (m : result A) (h : exn -> result A) : result A :=
  match m with
  | Raise e => h e
  | _ => m
  end.

(** ** Python values found in the [extra] dictionaries *)

(** Values of a tag or metadata mapping. *)
Inductive pyatom : Type :=
| ANone
| AStr (s : string)
| AInt (z : Z).

Record datetime : Type := {
  wall : Z;                (* microseconds of the wall clock *)
  utcoffset : option Z     (* [None] for a naive datetime *)
}.

Inductive pyval : Type :=
| VNone
| VStr (s : string)
| VInt (z : Z)
| VDatetime (d : datetime)
| VDict (m : gmap string pyatom).

(** [d[key]] on a dictionary. *)
Definition getitem {V : Type} (d : gmap string V) (key : string) : result V :=
  match d !! key with
  | Some v => Ok v
  | None => Raise KeyError
  end.

(** [d.get(key, default)] *)
Definition dict_get {V : Type} (d : gmap string V) (key : string) (default : V) : V :=
  match d !! key with
  | Some v => v
  | None => default
  end.

(** [o[key]] on an arbitrary value: only a dictionary can be subscripted by
    a string. *)
Definition subscript (o : pyval) (key : string) : result pyatom :=
  match o with
  | VDict m => getitem m key
  | _ => Raise TypeError
  end.

(** ** Datetimes *)

(** [datetime.now(tz=tzutc())] at the instant [now]. *)
Definition now_utc (now : Z) : datetime :=
  {| wall := now; utcoffset := Some 0 |}.

(** [d.replace(tzinfo=tzutc())] keeps the wall clock. *)
Definition replace_tzutc (d : datetime) : datetime :=
  {| wall := wall d; utcoffset := Some 0 |}.

(** [a - b] on two datetimes: a timedelta, or [TypeError] when exactly one
    of them is naive. *)
Definition datetime_sub (a b : datetime) : result Z :=
  match utcoffset a, utcoffset b with
  | Some oa, Some ob => Ok ((wall a - oa) - (wall b - ob))
  | None, None => Ok (wall a - wall b)
  | _, _ => Raise TypeError
  end.

(** The wall clocks of [datetime.min] (0001-01-01T00:00:00) and of
    [datetime.max] (9999-12-31T23:59:59.999999), in microseconds from
    1970-01-01T00:00:00. *)
Definition datetime_min_wall : Z := -62135596800000000.
Definition datetime_max_wall : Z := 253402300799999999.

Definition representable (w : Z) : bool :=
  (datetime_min_wall <=? w) && (w <=? datetime_max_wall).

(** [a - delta]: the wall clock moves and the time zone stays;
    [OverflowError] when the result is not a date of the years 1 to 9999. *)
Definition datetime_sub_delta (a : datetime) (delta : Z) : result datetime :=
  if representable (wall a - delta)
  then Ok {| wall := wall a - delta; utcoffset := utcoffset a |}
  else Raise OverflowError.

(** [a < b] on two datetimes. *)
Definition datetime_lt (a b : datetime) : result bool :=
  match utcoffset a, utcoffset b with
  | Some oa, Some ob => Ok ((wall a - oa) <? (wall b - ob))
  | None, None => Ok (wall a <? wall b)
  | _, _ => Raise TypeError
  end.

(** [a - o] where [a] is a datetime and [o] any value read from [extra]. *)
Definition datetime_sub_val (a : datetime) (o : pyval) : result Z :=
  match o with
  | VDatetime b => datetime_sub a b
  | _ => Raise TypeError
  end.

(** ** Cloud resources *)

Inductive driver : Type :=
| RackspaceDriver
| EC2Driver (account : nat).   (* 0: the base account; k+1: the k-th [extra-aws] overlay *)

Record StorageVolume : Type := {
  volume_id : string;
  volume_driver : driver;
  volume_extra : gmap string pyval
}.

(** [libcloud.compute.types.NodeState] *)
Inductive NodeState : Type :=
| RUNNING | REBOOTING | TERMINATED | PENDING | UNKNOWN
| STOPPED | SUSPENDED | ERROR | PAUSED.

Record Node : Type := {
  node_id : string;
  node_name : string;
  node_state : NodeState;
  node_driver : driver;
  node_extra : gmap string pyval
}.

Record VolumeActions : Type := {
  destroy : list StorageVolume;
  keep : list StorageVolume
}.

(** The dictionary [{'destroyed': ..., 'kept': ...}] returned by
    [CleanAcceptanceInstances.start]. *)
Record NodeActions : Type := {
  destroyed : list Node;
  kept : list Node
}.

(** ** The environment of a run *)

(** Library functions the module imports: [dateutil.parser.parse] (bound to
    [parse_date]) and the constructor [uuid.UUID], read through its [int]
    attribute.  Either may raise. *)
Class Library : Type := {
  parse_date : pyval -> result datetime;
  UUID : pyatom -> result Z
}.

(** What the libcloud drivers answer during the run.  The answer to
    [resource.destroy()] may depend on the destroy calls made before it. *)
Record Cloud : Type := {
  list_volumes : driver -> result (list StorageVolume);
  list_nodes : driver -> result (list Node);
  destroy_volume : list StorageVolume -> StorageVolume -> result bool
}.

(** The parts of the configuration document that the planner reads:
    [config['metadata']['creator']] and the number of overlays under
    [config.get("extra-aws", [])].  The planner is modelled from the point
    where its drivers are built; building them from the document is
    modelled in [Drivers] below. *)
Record Config : Type := {
  metadata_creator : string;
  extra_aws : nat
}.

#[global] Instance NodeState_eq_dec : EqDecision NodeState.
Proof. solve_decision. Defined.

(** ** Creation times and tags *)

Section CreationTime.
Context {L : Library}.

Definition is_None (o : pyval) : bool :=
  match o with
  | VNone => true
  | _ => false
  end.

Definition get_creation_time (node : Node) : result (option datetime) :=
  let date_string :=
    dict_get (node_extra node) "created"
             (dict_get (node_extra node) "launch_time" VNone) in
  if is_None date_string then Ok None
  else let? d := parse_date date_string in Ok (Some d).

Definition _get_volume_creation_time (volume : StorageVolume) : result pyval :=
  except_KeyError
    (getitem (volume_extra volume) "create_time")
    (let? s := getitem (volume_extra volume) "created_at" in
     let? d := parse_date s in
     Ok (VDatetime (replace_tzutc d))).
End CreationTime.

Definition _get_tag (volume : StorageVolume) (tag_name : string) : result pyatom :=
  subscript
    (dict_get (volume_extra volume) "tags"
              (dict_get (volume_extra volume) "metadata" VNone))
    tag_name.

(** [UUID.node]: the low 48 bits, [self.int & 0xffffffffffff]. *)
Definition uuid_node (int : Z) : Z := Z.land int 281474976710655.

(** ** [CleanVolumes] *)

Module CleanVolumes.

Record t : Type := { lag : Z; marker : Z }.

Section Methods.
Context {L : Library}.
Variable self : t.

Fixpoint _get_cloud_volumes_from (cloud : Cloud) (drivers : list driver)
         (volumes : list StorageVolume) : result (list StorageVolume) :=
  match drivers with
  | [] => Ok volumes
  | driver :: rest =>
      let? listed := list_volumes cloud driver in
      _get_cloud_volumes_from cloud rest (volumes ++ listed)
  end.

Definition _get_cloud_drivers (config : Config) : list driver :=
  [RackspaceDriver; EC2Driver 0]
    ++ map (fun k => EC2Driver (S k)) (seq 0 (extra_aws config)).

Definition _get_cloud_volumes (cloud : Cloud) (drivers : list driver)
  : result (list StorageVolume) :=
  _get_cloud_volumes_from cloud drivers [].

Definition _get_cluster_id (volume : StorageVolume) : result pyatom :=
  _get_tag volume "flocker-cluster-id".

Definition _is_test_cluster (cluster_id : pyatom) : result bool :=
  except_all
    (let? int := UUID cluster_id in Ok (uuid_node int =? marker self))
    (fun _ => Ok false).

Definition _is_test_volume (volume : StorageVolume) : result bool :=
  match _get_cluster_id volume with
  | Ok cluster_id => _is_test_cluster cluster_id
  | Raise KeyError => Ok false
  | Raise e => Raise e
  end.

(** The loop of [_filter_test_volumes]; [destroy] and [keep] are the two
    lists it appends to. *)
Fixpoint _filter_test_volumes_loop (now : datetime) (maximum_age : Z)
         (volumes destroy keep : list StorageVolume) : result VolumeActions :=
  match volumes with
  | [] => Ok {| destroy := destroy; keep := keep |}
  | volume :: rest =>
      let? created := _get_volume_creation_time volume in
      let? test := _is_test_volume volume in
      let? old := (if test
                 then let? age := datetime_sub_val now created in
                      Ok (age >? maximum_age)
                 else Ok false) in
      if old
      then _filter_test_volumes_loop now maximum_age rest (destroy ++ [volume]) keep
      else _filter_test_volumes_loop now maximum_age rest destroy (keep ++ [volume])
  end.

Definition _filter_test_volumes (now : Z) (maximum_age : Z)
           (volumes : list StorageVolume) : result VolumeActions :=
  _filter_test_volumes_loop (now_utc now) maximum_age volumes [] [].

Definition start (cloud : Cloud) (now : Z) (config : Config) (dry_run : bool)
  : result VolumeActions :=
  let drivers := _get_cloud_drivers config in
  let? volumes := _get_cloud_volumes cloud drivers in
  _filter_test_volumes now (lag self) volumes.
End Methods.

End CleanVolumes.

(** ** [CleanAcceptanceInstances] *)

Module CleanAcceptanceInstances.

Record t : Type := { lag : Z; prefixes : list string }.

(** [name.startswith(prefixes)] with a tuple of prefixes. *)
Definition startswith (name : string) (prefixes : list string) : bool :=
  existsb (fun p => String.prefix p name) prefixes.

Section Methods.
Context {L : Library}.
Variable self : t.

Fixpoint list_all_nodes (cloud : Cloud) (drivers : list driver)
         (all_nodes : list Node) : result (list Node) :=
  match drivers with
  | [] => Ok all_nodes
  | driver :: rest =>
      let? listed := list_nodes cloud driver in
      list_all_nodes cloud rest (all_nodes ++ listed)
  end.

(** The condition of the list comprehension that builds [test_nodes]. *)
Definition is_test_node (prefixes : list string) (node : Node) : bool :=
  startswith (node_name node) prefixes
  && bool_decide (node_state node ∈ [RUNNING; TERMINATED]).

(** The loop that splits [test_nodes]. *)
Fixpoint split_nodes (cutoff : datetime) (test_nodes destroyed_nodes kept_nodes : list Node)
  : result NodeActions :=
  match test_nodes with
  | [] => Ok {| destroyed := destroyed_nodes; kept := kept_nodes |}
  | node :: rest =>
      let? creation_time := get_creation_time node in
      let? old := match creation_time with
                | None => Ok false
                | Some created => datetime_lt created cutoff
                end in
      if old
      then split_nodes cutoff rest (destroyed_nodes ++ [node]) kept_nodes
      else split_nodes cutoff rest destroyed_nodes (kept_nodes ++ [node])
  end.

Definition start (cloud : Cloud) (now : Z) (config : Config) (dry_run : bool)
  : result NodeActions :=
  let drivers := [RackspaceDriver; EC2Driver 0] in
  let creator := metadata_creator config in
  let prefixes := map (fun prefix => prefix ++ creator)%string (prefixes self) in
  let now := now_utc now in
  let? cutoff := datetime_sub_delta now (lag self) in
  let? all_nodes := list_all_nodes cloud drivers [] in
  let test_nodes := List.filter (is_test_node prefixes) all_nodes in
  split_nodes cutoff test_nodes [] [].
End Methods.

End CleanAcceptanceInstances.

(** ** Executor and reporter *)

(** An element of [resource_actions]: an instance of [VolumeActions], or the
    dictionary returned by [CleanAcceptanceInstances.start]. *)
Inductive action_group : Type :=
| VolumeActionsObject (actions : VolumeActions)
| NodeActionsDict (actions : NodeActions).

(** [action_group.destroy]: a dictionary has no such attribute. *)
Definition attr_destroy (action_group : action_group) : result (list StorageVolume) :=
  match action_group with
  | VolumeActionsObject actions => Ok (destroy actions)
  | NodeActionsDict _ => Raise AttributeError
  end.

(** What the executor leaves behind: the destroy calls it made, in order,
    and the entries it wrote to the log. *)
Record World : Type := {
  attempts : list StorageVolume;
  log : list (exn * string)
}.

Definition destroy_resource (cloud : Cloud) (resource : StorageVolume) (w : World) : World :=
  match destroy_volume cloud (attempts w) resource with
  | Ok _ =>
      {| attempts := attempts w ++ [resource]; log := log w |}
  | Raise e =>
      {| attempts := attempts w ++ [resource];
         log := log w ++ [(e, "Destroying resource.")] |}
  end.

Fixpoint destroy_each (cloud : Cloud) (resources : list StorageVolume) (w : World) : World :=
  match resources with
  | [] => w
  | resource :: rest => destroy_each cloud rest (destroy_resource cloud resource w)
  end.

Fixpoint perform_actions (cloud : Cloud) (resource_actions : list action_group) (w : World)
  : result unit * World :=
  match resource_actions with
  | [] => (Ok tt, w)
  | action_group :: rest =>
      match attr_destroy action_group with
      | Ok resources => perform_actions cloud rest (destroy_each cloud resources w)
      | Raise e => (Raise e, w)
      end
  end.

Fixpoint do_exit (actions : list action_group) : result unit :=
  match actions with
  | [] => Ok tt
  | action_group :: rest =>
      let? resources := attr_destroy action_group in
      if (Z.of_nat (length resources) >? 0) then Raise (SystemExit 1)
      else do_exit rest
  end.

Section Reporter.
Context {L : Library}.

(** [_format_time]: [datetime.isoformat] accepts datetimes only. *)
Definition _format_time (when : pyval) : result unit :=
  match when with
  | VNone => Ok tt
  | VDatetime _ => Ok tt
  | _ => Raise TypeError
  end.

Definition _describe_volume (volume : StorageVolume) : result unit :=
  let? created := _get_volume_creation_time volume in
  _format_time created.

Fixpoint describe_volumes (volumes : list StorageVolume) : result unit :=
  match volumes with
  | [] => Ok tt
  | volume :: rest => let? _ := _describe_volume volume in describe_volumes rest
  end.

(** [_ActionEncoder] on one element of the list, as far as raising is
    concerned.  Keys are sorted, so [destroy] comes before [keep].  A
    libcloud [Node] is neither a [VolumeActions] nor a [StorageVolume]:
    [json.JSONEncoder.default] raises [TypeError] on it. *)
Definition _ActionEncoder (action_group : action_group) : result unit :=
  match action_group with
  | VolumeActionsObject actions =>
      let? _ := describe_volumes (destroy actions) in
      describe_volumes (keep actions)
  | NodeActionsDict actions =>
      match (destroyed actions ++ kept actions)%list with
      | [] => Ok tt
      | _ :: _ => Raise TypeError
      end
  end.

(** [_dumps] on a list of action groups: whether the encoding raises. *)
Fixpoint _dumps (actions : list action_group) : result unit :=
  match actions with
  | [] => Ok tt
  | action_group :: rest => let? _ := _ActionEncoder action_group in _dumps rest
  end.

(** [print_actions] writes the encoding to standard output. *)
Definition print_actions (actions : list action_group) : result unit :=
  _dumps actions.
End Reporter.

(** ** The command *)

(** [CleanupCloudResourcesOptions] after [parseOptions]. *)
Record Options : Type := {
  opt_dry_run : bool;
  opt_config_file : Config;
  opt_volume_lag : Z;
  opt_instance_lag : Z;
  opt_marker : Z;
  opt_instance_name_prefixes : list string
}.

Section Main.
Context {L : Library}.

(** [parsed] is [None] when [parseOptions] raises [UsageError]. *)
Definition cleanup_cloud_resources_main (parsed : option Options) (cloud : Cloud) (now : Z)
  : result unit :=
  match parsed with
  | None => Raise (SystemExit 1)
  | Some options =>
      let? instances :=
        CleanAcceptanceInstances.start
          {| CleanAcceptanceInstances.lag := opt_instance_lag options;
             CleanAcceptanceInstances.prefixes := opt_instance_name_prefixes options |}
          cloud now (opt_config_file options) (opt_dry_run options) in
      let resource_actions := [NodeActionsDict instances] in
      let? _ := print_actions resource_actions in
      do_exit resource_actions
  end.
End Main.

(** The exit status of the interpreter: the argument of [SystemExit], 1 for
    any other exception that reaches the top level, 0 otherwise. *)
Definition exit_status (outcome : result unit) : Z :=
  match outcome with
  | Ok _ => 0
  | Raise (SystemExit code) => code
  | Raise _ => 1
  end.

(** ** Readers for the examples

    Two instances of the library functions, exact on the forms the providers
    use: timestamps [YYYY-MM-DDTHH:MM:SS] with or without a final [Z], and
    UUIDs written as 32 hexadecimal digits with the decorations
    [uuid.UUID] removes.  On other inputs they raise. *)

Definition digit (c : ascii) : option Z :=
  let n := Z.of_N (N_of_ascii c) in
  if (48 <=? n) && (n <=? 57) then Some (n - 48) else None.

Definition hex_digit (c : ascii) : option Z :=
  let n := Z.of_N (N_of_ascii c) in
  if (48 <=? n) && (n <=? 57) then Some (n - 48)
  else if (97 <=? n) && (n <=? 102) then Some (n - 87)
  else if (65 <=? n) && (n <=? 70) then Some (n - 55)
  else None.

Fixpoint read_digits (base : Z) (digit_of : ascii -> option Z) (cs : list ascii) (acc : Z)
  : option Z :=
  match cs with
  | [] => Some acc
  | c :: rest =>
      match digit_of c with
      | Some d => read_digits base digit_of rest (acc * base + d)
      | None => None
      end
  end.

Definition is_leap (y : Z) : bool :=
  (y mod 4 =? 0) && (negb (y mod 100 =? 0) || (y mod 400 =? 0)).

Definition days_in_month (y m : Z) : Z :=
  if m =? 2 then (if is_leap y then 29 else 28)
  else if (m =? 4) || (m =? 6) || (m =? 9) || (m =? 11) then 30
  else 31.

(** Days between 1970-01-01 and the given date of the proleptic Gregorian
    calendar. *)
Definition days_from_civil (y m d : Z) : Z :=
  let y' := if m <=? 2 then y - 1 else y in
  let era := y' / 400 in
  let yoe := y' - era * 400 in
  let doy := (153 * (if m >? 2 then m - 3 else m + 9) + 2) / 5 + d - 1 in
  let doe := yoe * 365 + yoe / 4 - yoe / 100 + doy in
  era * 146097 + doe - 719468.

Definition civil_wall (y m d hh mm ss : Z) : option Z :=
  if (1 <=? y) && (y <=? 9999) && (1 <=? m) && (m <=? 12)
     && (1 <=? d) && (d <=? days_in_month y m)
     && (hh <? 24) && (mm <? 60) && (ss <? 60)
  then Some ((days_from_civil y m d * 86400 + hh * 3600 + mm * 60 + ss) * 1000000)
  else None.

Definition is_char (c : ascii) (s : string) : bool :=
  String.eqb (String c EmptyString) s.

Definition iso_parse_date (o : pyval) : result datetime :=
  match o with
  | VStr s =>
      match list_ascii_of_string s with
      | y1 :: y2 :: y3 :: y4 :: a :: m1 :: m2 :: b :: d1 :: d2 :: t
           :: h1 :: h2 :: c :: i1 :: i2 :: e :: s1 :: s2 :: zone =>
          let num := fun cs => read_digits 10 digit cs 0 in
          match num [y1; y2; y3; y4], num [m1; m2], num [d1; d2],
                num [h1; h2], num [i1; i2], num [s1; s2] with
          | Some y, Some m, Some d, Some hh, Some mm, Some ss =>
              if is_char a "-" && is_char b "-" && is_char t "T"
                 && is_char c ":" && is_char e ":"
              then match civil_wall y m d hh mm ss, zone with
                   | Some w, [] => Ok {| wall := w; utcoffset := None |}
                   | Some w, [z] =>
                       if is_char z "Z" then Ok {| wall := w; utcoffset := Some 0 |}
                       else Raise ValueError
                   | _, _ => Raise ValueError
                   end
              else Raise ValueError
          | _, _, _, _, _, _ => Raise ValueError
          end
      | _ => Raise ValueError
      end
  | _ => Raise TypeError
  end.

(** [s.replace(old, '')] for a non-empty [old]; [skip] counts the characters
    of the current occurrence still to drop. *)
Fixpoint remove_sub (old : string) (s : string) (skip : nat) : string :=
  match s with
  | EmptyString => EmptyString
  | String c rest =>
      match skip with
      | S k => remove_sub old rest k
      | O =>
          if String.prefix old s
          then remove_sub old rest (String.length old - 1)%nat
          else String c (remove_sub old rest 0%nat)
      end
  end.

Definition is_brace (c : ascii) : bool := is_char c "{" || is_char c "}".

Fixpoint lstrip_braces (cs : list ascii) : list ascii :=
  match cs with
  | [] => []
  | c :: rest => if is_brace c then lstrip_braces rest else cs
  end.

(** [s.strip('{}')] *)
Definition strip_braces (s : string) : string :=
  string_of_list_ascii
    (rev (lstrip_braces (rev (lstrip_braces (list_ascii_of_string s))))).

(** [UUID(hex).int] *)
Definition uuid_hex (o : pyatom) : result Z :=
  match o with
  | AStr s =>
      let hex := remove_sub "uuid:" (remove_sub "urn:" s 0%nat) 0%nat in
      let hex := remove_sub "-" (strip_braces hex) 0%nat in
      if (String.length hex =? 32)%nat
      then match read_digits 16 hex_digit (list_ascii_of_string hex) 0 with
           | Some int => Ok int
           | None => Raise ValueError
           end
      else Raise ValueError
  | _ => Raise AttributeError
  end.

Definition reference_library : Library :=
  {| parse_date := iso_parse_date; UUID := uuid_hex |}.


(** ** Per-resource verdicts

    The body of each planner loop, as a function of the resource alone, and
    the loop itself over an arbitrary verdict.  The planner loops are shown
    below to be instances of [split_by]. *)

Fixpoint split_by {A : Type} (verdict : A -> result bool) (xs destroy keep : list A)
  : result (list A * list A) :=
  match xs with
  | [] => Ok (destroy, keep)
  | x :: rest =>
      let? old := verdict x in
      if old then split_by verdict rest (destroy ++ [x]) keep
      else split_by verdict rest destroy (keep ++ [x])
  end.

(** [says verdict b x]: the verdict on [x] is returned, and is [b]. *)
Definition says {A : Type} (verdict : A -> result bool) (b : bool) (x : A) : bool :=
  match verdict x with
  | Ok b' => Bool.eqb b b'
  | Raise _ => false
  end.

Definition returns {A : Type} (m : result A) : Prop := exists a, m = Ok a.

(** [verdict2] returns wherever [verdict1] does, and says [True] wherever
    [verdict1] says so. *)
Definition at_least {A : Type} (verdict1 verdict2 : A -> result bool) : Prop :=
  forall x b, verdict1 x = Ok b ->
    exists b', verdict2 x = Ok b' /\ (b = true -> b' = true).

Section Verdicts.
Context {L : Library}.

Definition volume_verdict (self : CleanVolumes.t) (now : datetime) (maximum_age : Z)
  (volume : StorageVolume) : result bool :=
  let? created := _get_volume_creation_time volume in
  let? test := CleanVolumes._is_test_volume self volume in
  if test
  then let? age := datetime_sub_val now created in Ok (age >? maximum_age)
  else Ok false.

Definition node_verdict (cutoff : datetime) (node : Node) : result bool :=
  let? creation_time := get_creation_time node in
  match creation_time with
  | None => Ok false
  | Some created => datetime_lt created cutoff
  end.

(** [v] is test-owned and older than the lag at the instant [now]. *)
Definition overdue (self : CleanVolumes.t) (now : Z) (maximum_age : Z) (v : StorageVolume)
  : Prop :=
  exists created age,
    _get_volume_creation_time v = Ok created
    /\ CleanVolumes._is_test_volume self v = Ok true
    /\ datetime_sub_val (now_utc now) created = Ok age
    /\ age > maximum_age.

End Verdicts.

(** The prefixes [start] matches names against. *)
Definition creator_prefixes (self : CleanAcceptanceInstances.t) (config : Config) : list string :=
  map (fun prefix => prefix ++ metadata_creator config)%string
      (CleanAcceptanceInstances.prefixes self).

(** The cut-off [start] compares creation times with, when it can be
    computed. *)
Definition cutoff_of (self : CleanAcceptanceInstances.t) (now : Z) : datetime :=
  {| wall := now - CleanAcceptanceInstances.lag self; utcoffset := Some 0 |}.

(** ** Example inputs

    The scenarios of the specification: marker [0xABC123], the clock at
    2015-06-01T12:00:00Z, a lag of 120 minutes. *)

Definition example_marker : Z := 11256099.            (* 0xABC123 *)
Definition example_now : Z := 1433160000000000.       (* 2015-06-01T12:00:00Z *)
Definition minutes (n : Z) : Z := n * 60000000.       (* timedelta(minutes=n) *)

Definition test_cluster_id : pyatom := AStr "01234567-89ab-1def-8000-000000abc123".
Definition other_cluster_id : pyatom := AStr "01234567-89ab-1def-8000-000000def456".

Definition aware (w : Z) : pyval := VDatetime {| wall := w; utcoffset := Some 0 |}.

Definition ec2_volume (id : string) (created : Z) (cluster_id : pyatom) : StorageVolume :=
  {| volume_id := id;
     volume_driver := EC2Driver 0;
     volume_extra :=
       {[ "create_time" := aware created;
          "tags" := VDict {[ "flocker-cluster-id" := cluster_id ]} ]} |}.

Definition rackspace_volume (id : string) (created_at : string) (cluster_id : pyatom)
  : StorageVolume :=
  {| volume_id := id;
     volume_driver := RackspaceDriver;
     volume_extra :=
       {[ "created_at" := VStr created_at;
          "metadata" := VDict {[ "flocker-cluster-id" := cluster_id ]} ]} |}.

Definition volume_3h : StorageVolume :=
  ec2_volume "vol-3h" (example_now - minutes 180) test_cluster_id.
Definition volume_1h : StorageVolume :=
  ec2_volume "vol-1h" (example_now - minutes 60) test_cluster_id.
Definition volume_other : StorageVolume :=
  ec2_volume "vol-other" (example_now - minutes 180) other_cluster_id.
Definition volume_rackspace : StorageVolume :=
  rackspace_volume "rs-3h" "2015-06-01T09:00:00" test_cluster_id.

(** A volume that carries neither a tag mapping nor a metadata mapping. *)
Definition volume_untagged : StorageVolume :=
  {| volume_id := "vol-untagged";
     volume_driver := EC2Driver 0;
     volume_extra := {[ "create_time" := aware (example_now - minutes 180) ]} |}.

(** A Rackspace volume for which the provider reports no metadata. *)
Definition volume_no_metadata : StorageVolume :=
  {| volume_id := "rs-bare";
     volume_driver := RackspaceDriver;
     volume_extra :=
       {[ "created_at" := VStr "2015-06-01T09:00:00"; "metadata" := VNone ]} |}.

(** A volume of another owner whose creation time is not reported. *)
Definition volume_undated : StorageVolume :=
  {| volume_id := "vol-undated";
     volume_driver := EC2Driver 0;
     volume_extra := {[ "tags" := VDict {[ "Name" := AStr "database" ]} ]} |}.

Definition example_volumes : CleanVolumes.t :=
  {| CleanVolumes.lag := minutes 120; CleanVolumes.marker := example_marker |}.

Definition example_instances : CleanAcceptanceInstances.t :=
  {| CleanAcceptanceInstances.lag := minutes 120;
     CleanAcceptanceInstances.prefixes := ["acceptance-test-"; "client-test-"] |}.

Definition example_config : Config :=
  {| metadata_creator := "alice"; extra_aws := 0 |}.

Definition instance (name : string) (state : NodeState) (extra : gmap string pyval) : Node :=
  {| node_id := name; node_name := name; node_state := state;
     node_driver := RackspaceDriver; node_extra := extra |}.

Definition node_3h : Node :=
  instance "acceptance-test-alice-worker-1" TERMINATED
           {[ "created" := VStr "2015-06-01T09:00:00Z" ]}.
Definition node_1h : Node :=
  instance "client-test-alice-2" RUNNING
           {[ "launch_time" := VStr "2015-06-01T11:00:00Z" ]}.
Definition node_stopped : Node :=
  instance "acceptance-test-alice-worker-1" STOPPED
           {[ "created" := VStr "2015-06-01T09:00:00Z" ]}.
Definition node_undated : Node :=
  instance "acceptance-test-alice-worker-3" RUNNING ∅.
Definition node_foreign : Node :=
  instance "production-db" RUNNING
           {[ "created" := VStr "2015-06-01T09:00:00Z" ]}.
Definition node_foreign_undated : Node :=
  instance "production-cache" RUNNING ∅.

(** A cloud whose Rackspace account lists [rackspace_nodes] and
    [rackspace_volumes], whose EC2 account lists [ec2_nodes] and
    [ec2_volumes], and where destroying the volumes in [failing] raises. *)
Definition example_cloud (rackspace_nodes ec2_nodes : list Node)
  (rackspace_volumes ec2_volumes : list StorageVolume) (failing : list string) : Cloud :=
  {| list_volumes := fun d =>
       match d with
       | RackspaceDriver => Ok rackspace_volumes
       | EC2Driver O => Ok ec2_volumes
       | EC2Driver (S _) => Ok []
       end;
     list_nodes := fun d =>
       match d with
       | RackspaceDriver => Ok rackspace_nodes
       | EC2Driver O => Ok ec2_nodes
       | EC2Driver (S _) => Ok []
       end;
     destroy_volume := fun _ volume =>
       if existsb (String.eqb (volume_id volume)) failing
       then Raise (ProviderError "destroy failed")
       else Ok true |}.

Definition example_options : Options :=
  {| opt_dry_run := false;
     opt_config_file := example_config;
     opt_volume_lag := minutes 30;
     opt_instance_lag := minutes 120;
     opt_marker := example_marker;
     opt_instance_name_prefixes := ["acceptance-test-"; "client-test-"] |}.

(** ** The log the executor is expected to write

    The entries [destroy_each] adds for [resources], given the destroy calls
    [prior] made before them: one per call that raises, in order. *)
Fixpoint failures (cloud : Cloud) (prior resources : list StorageVolume)
  : list (exn * string) :=
  match resources with
  | [] => []
  | resource :: rest =>
      (match destroy_volume cloud prior resource with
       | Ok _ => []
       | Raise e => [(e, "Destroying resource.")]
       end ++ failures cloud (prior ++ [resource]) rest)%list
  end.

(** ** Driver construction from the configuration document

    [get_rackspace_driver], [get_ec2_driver] and [_get_cloud_drivers] with
    the credentials they read.  A section of the document is a mapping from
    field names to strings.  The libcloud constructors are library code:
    the development is parametric in them. *)

Module Drivers.

(** The provider and the arguments of one constructor call. *)
Inductive credentials : Type :=
| Rackspace (username key region : string)
| EC2 (access_key secret_access_token region : string).

(** [get_driver(Provider.X)(...)]: a driver, or the exception the
    constructor raises (on an unknown region, for one). *)
Class Libcloud (D : Type) : Type := {
  get_driver : credentials -> result D
}.

(** The keys of the document that [_get_cloud_drivers] reads; [None] for an
    absent key. *)
Record document : Type := {
  rackspace : option (gmap string string);
  aws : option (gmap string string);
  extra_aws_overlays : option (list (gmap string string))
}.

(** [config[key]] *)
Definition section (entry : option (gmap string string)) : result (gmap string string) :=
  match entry with
  | Some fields => Ok fields
  | None => Raise KeyError
  end.

(** [base_ec2.copy()] followed by [.update(extra)]: the fields of [extra]
    replace those of the copy. *)
Definition overlay (base_ec2 extra : gmap string string) : gmap string string :=
  extra ∪ base_ec2.

(** The field an overlaid driver is built with: the overlay's when it has
    one, the base account's otherwise. *)
Definition overlaid (extra : gmap string string) (field : string) (base : string) : string :=
  match extra !! field with
  | Some value => value
  | None => base
  end.

Section Construction.
Context {D : Type} {libcloud : Libcloud D}.

Definition get_rackspace_driver (rackspace : gmap string string) : result D :=
  let? username := getitem rackspace "username" in
  let? key := getitem rackspace "key" in
  let? region := getitem rackspace "region" in
  get_driver (Rackspace username key region).

Definition get_ec2_driver (aws : gmap string string) : result D :=
  let? access_key := getitem aws "access_key" in
  let? secret_access_token := getitem aws "secret_access_token" in
  let? region := getitem aws "region" in
  get_driver (EC2 access_key secret_access_token region).

(** The loop over [config.get("extra-aws", [])]. *)
Fixpoint extra_drivers (base_ec2 : gmap string string) (extras : list (gmap string string))
  (drivers : list D) : result (list D) :=
  match extras with
  | [] => Ok drivers
  | extra :: rest =>
      let extra_driver_config := overlay base_ec2 extra in
      let? driver := get_ec2_driver extra_driver_config in
      extra_drivers base_ec2 rest (drivers ++ [driver])
  end.

Definition _get_cloud_drivers (config : document) : result (list D) :=
  let? base_ec2 := section (aws config) in
  let? rackspace_driver :=
    (let? fields := section (rackspace config) in get_rackspace_driver fields) in
  let? ec2_driver := get_ec2_driver base_ec2 in
  extra_drivers base_ec2
    (match extra_aws_overlays config with Some extras => extras | None => [] end)
    [rackspace_driver; ec2_driver].

End Construction.

(** Constructors for the examples: a driver is the credentials it was
    built from, and a region outside the listed ones is refused. *)
Definition known_region (c : credentials) : bool :=
  match c with
  | Rackspace _ _ region => existsb (String.eqb region) ["dfw"; "ord"; "iad"; "lon"]
  | EC2 _ _ region => existsb (String.eqb region) ["us-east-1"; "us-west-1"; "us-west-2"]
  end.

Definition example_libcloud : Libcloud credentials :=
  {| get_driver := fun c => if known_region c then Ok c else Raise ValueError |}.

End Drivers.

(** ** Command-line options

    The dictionary of [CleanupCloudResourcesOptions] while the arguments are
    read: [opt_instance_name_prefix] runs once for each occurrence of
    [--instance-name-prefix], in order, and [postOptions] runs last. *)

Definition DEFAULT_INSTANCE_NAME_PREFIXES : list string :=
  ["acceptance-test-"; "client-test-"].

Record OptionsDict : Type := {
  dict_dry_run : Z;                              (* 0, or 1 once [--dry-run] is seen *)
  dict_config_file : option Config;              (* [None] until [--config-file] is seen *)
  dict_volume_lag : Z;
  dict_instance_lag : Z;
  dict_marker : Z;
  dict_instance_name_prefixes : option (list string)   (* [None]: the key is absent *)
}.

(** [self.setdefault('instance_name_prefixes', []).append(prefix)] *)
Definition opt_instance_name_prefix (self : OptionsDict) (instance_name_prefix : string)
  : OptionsDict :=
  {| dict_dry_run := dict_dry_run self;
     dict_config_file := dict_config_file self;
     dict_volume_lag := dict_volume_lag self;
     dict_instance_lag := dict_instance_lag self;
     dict_marker := dict_marker self;
     dict_instance_name_prefixes :=
       Some (match dict_instance_name_prefixes self with
             | Some given => given
             | None => []
             end ++ [instance_name_prefix])%list |}.

(** [postOptions]; [None] stands for [UsageError]. *)
Definition postOptions (self : OptionsDict) : option Options :=
  let dry_run := negb (dict_dry_run self =? 0) in
  match dict_config_file self with
  | None => None
  | Some config =>
      Some {| opt_dry_run := dry_run;
              opt_config_file := config;
              opt_volume_lag := dict_volume_lag self;
              opt_instance_lag := dict_instance_lag self;
              opt_marker := dict_marker self;
              opt_instance_name_prefixes :=
                match dict_instance_name_prefixes self with
                | Some given => given
                | None => DEFAULT_INSTANCE_NAME_PREFIXES
                end |}
  end.

(** The prefix options of the command line, then [postOptions]. *)
Definition read_prefix_options (self : OptionsDict) (given : list string) : option Options :=
  postOptions (fold_left opt_instance_name_prefix given self).

(** Plans that carry a [destroy] list with nothing in it. *)
Definition quiet (groups : list VolumeActions) : Prop :=
  forall g, In g groups -> destroy g = [].

(** ** Further example inputs *)


(** A test node whose ["created"] field is [None] although a launch time is
    reported. *)
Definition node_created_none : Node :=
  instance "acceptance-test-alice-worker-4" RUNNING
           {[ "created" := VNone; "launch_time" := VStr "2015-06-01T09:00:00Z" ]}.

(** A test node created exactly at the cut-off of a 120 minute lag. *)
Definition node_2h : Node :=
  instance "acceptance-test-alice-worker-5" RUNNING
           {[ "created" := VStr "2015-06-01T10:00:00Z" ]}.


(** A volume whose tag mapping lacks the cluster id although its metadata
    mapping has it. *)
Definition volume_tags_shadow_metadata : StorageVolume :=
  {| volume_id := "vol-shadow";
     volume_driver := EC2Driver 0;
     volume_extra :=
       {[ "create_time" := aware (example_now - minutes 180);
          "tags" := VDict {[ "Name" := AStr "scratch" ]};
          "metadata" := VDict {[ "flocker-cluster-id" := test_cluster_id ]} ]} |}.

Definition example_document : Drivers.document :=
  {| Drivers.rackspace :=
       Some {[ "username" := "ops"; "key" := "rk"; "region" := "dfw" ]};
     Drivers.aws :=
       Some {[ "access_key" := "ak"; "secret_access_token" := "st"; "region" := "us-west-1" ]};
     Drivers.extra_aws_overlays :=
       Some [ {[ "region" := "us-east-1" ]};
              {[ "access_key" := "ak2"; "secret_access_token" := "st2" ]} ] |}.

Definition initial_options (config_file : option Config) : OptionsDict :=
  {| dict_dry_run := 0;
     dict_config_file := config_file;
     dict_volume_lag := minutes 30;
     dict_instance_lag := minutes 120;
     dict_marker := example_marker;
     dict_instance_name_prefixes := None |}.

(** * Properties *)

(** ** The result monad *)

Lemma bind_Ok_inv {A B : Type} (m : result A) (k : A -> result B) (b : B) :
  bind m k = Ok b -> exists a, m = Ok a /\ k a = Ok b.
Proof.
  destruct m as [a | e]; simpl; intros H.
  - exists a. split; [reflexivity | exact H].
  - discriminate H.
Qed.

(** ** The generic loop *)

Section SplitBy.
Context {A : Type} (verdict : A -> result bool).

Lemma says_Ok (x : A) (b c : bool) : verdict x = Ok b -> says verdict c x = Bool.eqb c b.
Proof. unfold says. intros ->. reflexivity. Qed.

Lemma split_by_Ok (xs destroy keep destroy' keep' : list A) :
  split_by verdict xs destroy keep = Ok (destroy', keep') ->
  Forall (fun x => returns (verdict x)) xs
  /\ destroy' = (destroy ++ List.filter (says verdict true) xs)%list
  /\ keep' = (keep ++ List.filter (says verdict false) xs)%list.
Proof.
  revert destroy keep destroy' keep'.
  induction xs as [| x rest IH]; intros destroy keep destroy' keep' H; cbn [split_by] in H.
  - injection H as <- <-. rewrite !app_nil_r. auto.
  - apply bind_Ok_inv in H as (old & Hx & H).
    cbn [List.filter]. rewrite !(says_Ok _ _ _ Hx).
    destruct old; apply IH in H as (Hall & -> & ->); cbn [Bool.eqb];
      rewrite <- ?app_assoc;
      (split; [constructor; [eexists; exact Hx | exact Hall] | split; reflexivity]).
Qed.

Lemma split_by_total (xs destroy keep : list A) :
  Forall (fun x => returns (verdict x)) xs ->
  split_by verdict xs destroy keep
  = Ok ((destroy ++ List.filter (says verdict true) xs)%list,
        (keep ++ List.filter (says verdict false) xs)%list).
Proof.
  intros Hall. revert destroy keep.
  induction Hall as [| x rest [b Hx] _ IH]; intros destroy keep; cbn [split_by List.filter].
  - rewrite !app_nil_r. reflexivity.
  - rewrite !(says_Ok _ _ _ Hx), Hx. cbn [bind].
    destruct b; rewrite IH; cbn [Bool.eqb]; rewrite <- ?app_assoc; reflexivity.
Qed.

Lemma split_by_Raise (xs destroy keep : list A) (x : A) (e : exn) :
  In x xs -> verdict x = Raise e ->
  exists e', split_by verdict xs destroy keep = Raise e'.
Proof.
  revert destroy keep.
  induction xs as [| y rest IH]; intros destroy keep Hin Hx; [destruct Hin |].
  simpl. destruct (verdict y) as [b | e'] eqn:Hy; simpl.
  - destruct Hin as [-> | Hin]; [congruence |].
    destruct b; eapply IH; eassumption.
  - exists e'. reflexivity.
Qed.

Lemma says_exclusive (x : A) : says verdict true x = true -> says verdict false x = true -> False.
Proof.
  unfold says. destruct (verdict x) as [[] | ]; simpl; intros; discriminate.
Qed.

Lemma says_cases (x : A) :
  returns (verdict x) -> says verdict false x = negb (says verdict true x).
Proof.
  intros [b Hb]. unfold says. rewrite Hb. destruct b; reflexivity.
Qed.

Lemma filter_says_perm (xs : list A) :
  Forall (fun x => returns (verdict x)) xs ->
  Permutation (List.filter (says verdict true) xs ++ List.filter (says verdict false) xs) xs.
Proof.
  induction 1 as [| x rest [b Hx] _ IH]; cbn [List.filter]; [constructor |].
  rewrite !(says_Ok _ _ _ Hx). destruct b; cbn [Bool.eqb].
  - constructor. exact IH.
  - symmetry. apply Permutation_cons_app. symmetry. exact IH.
Qed.

End SplitBy.

(** ** The planner loops are instances of the generic loop *)

Section Planner.
Context {L : Library}.

Lemma _filter_test_volumes_loop_split_by self now maximum_age volumes ds ks :
  CleanVolumes._filter_test_volumes_loop self now maximum_age volumes ds ks
  = let? p := split_by (volume_verdict self now maximum_age) volumes ds ks in
    Ok {| destroy := fst p; keep := snd p |}.
Proof.
  revert ds ks.
  induction volumes as [| volume rest IH]; intros ds ks; [reflexivity |].
  cbn [CleanVolumes._filter_test_volumes_loop split_by].
  unfold volume_verdict.
  destruct (_get_volume_creation_time volume) as [created |]; [| reflexivity].
  cbn [bind].
  destruct (CleanVolumes._is_test_volume self volume) as [[] |]; cbn [bind];
    [| apply IH | reflexivity].
  destruct (datetime_sub_val now created) as [age |]; [| reflexivity].
  cbn [bind]. destruct (age >? maximum_age); apply IH.
Qed.

Lemma split_nodes_split_by cutoff test_nodes ds ks :
  CleanAcceptanceInstances.split_nodes cutoff test_nodes ds ks
  = let? p := split_by (node_verdict cutoff) test_nodes ds ks in
    Ok {| destroyed := fst p; kept := snd p |}.
Proof.
  revert ds ks.
  induction test_nodes as [| node rest IH]; intros ds ks; [reflexivity |].
  cbn [CleanAcceptanceInstances.split_nodes split_by].
  unfold node_verdict.
  destruct (get_creation_time node) as [[created |] |]; cbn [bind];
    [| apply IH | reflexivity].
  destruct (datetime_lt created cutoff) as [[] |]; cbn [bind];
    [apply IH | apply IH | reflexivity].
Qed.

(** What a computed volume plan is. *)
Lemma _filter_test_volumes_Ok self now maximum_age volumes plan :
  CleanVolumes._filter_test_volumes self now maximum_age volumes = Ok plan ->
  let verdict := volume_verdict self (now_utc now) maximum_age in
  Forall (fun v => returns (verdict v)) volumes
  /\ destroy plan = List.filter (says verdict true) volumes
  /\ keep plan = List.filter (says verdict false) volumes.
Proof.
  unfold CleanVolumes._filter_test_volumes.
  rewrite _filter_test_volumes_loop_split_by. intros H.
  apply bind_Ok_inv in H as ([ds ks] & H & Hplan).
  injection Hplan as <-. apply split_by_Ok in H as (Hall & -> & ->).
  auto.
Qed.

Lemma _filter_test_volumes_total self now maximum_age volumes :
  let verdict := volume_verdict self (now_utc now) maximum_age in
  Forall (fun v => returns (verdict v)) volumes ->
  CleanVolumes._filter_test_volumes self now maximum_age volumes
  = Ok {| destroy := List.filter (says verdict true) volumes;
          keep := List.filter (says verdict false) volumes |}.
Proof.
  intros verdict Hall. unfold CleanVolumes._filter_test_volumes.
  rewrite _filter_test_volumes_loop_split_by.
  rewrite (split_by_total _ _ _ _ Hall). reflexivity.
Qed.

Lemma start_volumes_Ok self cloud now config dry_run plan :
  CleanVolumes.start self cloud now config dry_run = Ok plan ->
  exists volumes,
    CleanVolumes._get_cloud_volumes cloud (CleanVolumes._get_cloud_drivers config) = Ok volumes
    /\ CleanVolumes._filter_test_volumes self now (CleanVolumes.lag self) volumes = Ok plan.
Proof.
  unfold CleanVolumes.start. intros H.
  apply bind_Ok_inv in H as (volumes & Hlist & H). eauto.
Qed.

(** [start], with the computation of the cut-off spelled out. *)
Lemma start_nodes_unfold self cloud now config dry_run :
  CleanAcceptanceInstances.start self cloud now config dry_run
  = if representable (now - CleanAcceptanceInstances.lag self)
    then let? all_nodes :=
           CleanAcceptanceInstances.list_all_nodes cloud [RackspaceDriver; EC2Driver 0] [] in
         CleanAcceptanceInstances.split_nodes (cutoff_of self now)
           (List.filter (CleanAcceptanceInstances.is_test_node (creator_prefixes self config))
                        all_nodes) [] []
    else Raise OverflowError.
Proof.
  unfold CleanAcceptanceInstances.start, datetime_sub_delta, now_utc. cbn [wall utcoffset].
  destruct (representable (now - CleanAcceptanceInstances.lag self)); reflexivity.
Qed.

Lemma start_nodes_cutoff self cloud now config dry_run plan :
  CleanAcceptanceInstances.start self cloud now config dry_run = Ok plan ->
  representable (now - CleanAcceptanceInstances.lag self) = true.
Proof.
  rewrite start_nodes_unfold.
  destruct (representable (now - CleanAcceptanceInstances.lag self));
    [reflexivity | discriminate].
Qed.

Lemma start_nodes_Ok self cloud now config dry_run plan :
  CleanAcceptanceInstances.start self cloud now config dry_run = Ok plan ->
  exists all_nodes,
    CleanAcceptanceInstances.list_all_nodes cloud [RackspaceDriver; EC2Driver 0] [] = Ok all_nodes
    /\ let test_nodes :=
         List.filter (CleanAcceptanceInstances.is_test_node (creator_prefixes self config))
                     all_nodes in
       let verdict := node_verdict (cutoff_of self now) in
       Forall (fun n => returns (verdict n)) test_nodes
       /\ destroyed plan = List.filter (says verdict true) test_nodes
       /\ kept plan = List.filter (says verdict false) test_nodes.
Proof.
  rewrite start_nodes_unfold. intros H.
  destruct (representable (now - CleanAcceptanceInstances.lag self)); [| discriminate].
  apply bind_Ok_inv in H as (all_nodes & Hlist & H).
  exists all_nodes. split; [exact Hlist |].
  rewrite split_nodes_split_by in H.
  apply bind_Ok_inv in H as ([ds ks] & H & Hplan).
  injection Hplan as <-. apply split_by_Ok in H as (Hall & -> & ->).
  auto.
Qed.

End Planner.

(** ** C1: the plan partitions the candidates *)

(** C1, as stated, fails for instances: a node that a provider lists but
    whose name matches no prefix is in neither list of the plan. *)
Lemma C1_foreign_node_in_neither_list :
  exists plan,
    CleanAcceptanceInstances.start (L := reference_library) example_instances
      (example_cloud [node_foreign] [] [] [] []) example_now example_config false
    = Ok plan
    /\ list_nodes (example_cloud [node_foreign] [] [] [] []) RackspaceDriver = Ok [node_foreign]
    /\ ~ In node_foreign (destroyed plan)
    /\ ~ In node_foreign (kept plan).
Proof.
  exists {| destroyed := []; kept := [] |}.
  split; [vm_compute; reflexivity |].
  split; [reflexivity |].
  split; intros [].
Qed.

(** C1 (amended).  Whenever a plan is computed: the volume plan's [destroy]
    and [keep] are disjoint and together are a rearrangement of the
    enumerated volumes; the instance plan's [destroyed] and [kept] are
    disjoint and together are a rearrangement of the enumerated nodes that
    pass the name-and-state filter, and an enumerated node that does not
    pass it is in neither list. *)
Theorem C1_plan_partitions_candidates {L : Library} :
  (forall self cloud now config dry_run plan,
      CleanVolumes.start self cloud now config dry_run = Ok plan ->
      exists volumes,
        CleanVolumes._get_cloud_volumes cloud (CleanVolumes._get_cloud_drivers config)
        = Ok volumes
        /\ Permutation (destroy plan ++ keep plan) volumes
        /\ (forall v, In v (destroy plan) -> ~ In v (keep plan)))
  /\ (forall self cloud now config dry_run plan,
      CleanAcceptanceInstances.start self cloud now config dry_run = Ok plan ->
      exists all_nodes,
        CleanAcceptanceInstances.list_all_nodes cloud [RackspaceDriver; EC2Driver 0] []
        = Ok all_nodes
        /\ Permutation (destroyed plan ++ kept plan)
             (List.filter (CleanAcceptanceInstances.is_test_node (creator_prefixes self config))
                          all_nodes)
        /\ (forall n, In n (destroyed plan) -> ~ In n (kept plan))
        /\ (forall n, In n all_nodes ->
              CleanAcceptanceInstances.is_test_node (creator_prefixes self config) n = false ->
              ~ In n (destroyed plan) /\ ~ In n (kept plan))).
Proof.
  split.
  - intros self cloud now config dry_run plan H.
    apply start_volumes_Ok in H as (volumes & Hlist & H).
    apply _filter_test_volumes_Ok in H as (Hall & Hd & Hk).
    exists volumes. rewrite Hd, Hk. split; [exact Hlist |]. split.
    + apply filter_says_perm, Hall.
    + intros v [_ Ht]%filter_In [_ Hf]%filter_In.
      exact (says_exclusive _ _ Ht Hf).
  - intros self cloud now config dry_run plan H.
    apply start_nodes_Ok in H as (all_nodes & Hlist & Hall & Hd & Hk).
    exists all_nodes. rewrite Hd, Hk. split; [exact Hlist |]. split; [| split].
    + apply filter_says_perm, Hall.
    + intros n [_ Ht]%filter_In [_ Hf]%filter_In.
      exact (says_exclusive _ _ Ht Hf).
    + intros n _ Hn.
      split; intros [[_ Htest]%filter_In _]%filter_In; congruence.
Qed.

Lemma C1_plan_partitions_candidates_witness :
  (exists volumes,
      CleanVolumes._get_cloud_volumes
        (example_cloud [] [] [volume_rackspace] [volume_3h; volume_1h; volume_other] [])
        (CleanVolumes._get_cloud_drivers example_config)
      = Ok volumes
      /\ Permutation ([volume_rackspace; volume_3h] ++ [volume_1h; volume_other]) volumes
      /\ (forall v, In v [volume_rackspace; volume_3h] -> ~ In v [volume_1h; volume_other]))
  /\ (exists all_nodes,
      CleanAcceptanceInstances.list_all_nodes
        (example_cloud [node_3h; node_foreign; node_undated] [node_1h; node_stopped] [] [] [])
        [RackspaceDriver; EC2Driver 0] []
      = Ok all_nodes
      /\ Permutation ([node_3h] ++ [node_undated; node_1h])
           (List.filter
              (CleanAcceptanceInstances.is_test_node
                 (creator_prefixes example_instances example_config))
              all_nodes)
      /\ (forall n, In n [node_3h] -> ~ In n [node_undated; node_1h])
      /\ (forall n, In n all_nodes ->
            CleanAcceptanceInstances.is_test_node
              (creator_prefixes example_instances example_config) n = false ->
            ~ In n [node_3h] /\ ~ In n [node_undated; node_1h])).
Proof.
  split.
  - apply (proj1 (@C1_plan_partitions_candidates reference_library)
             example_volumes
             (example_cloud [] [] [volume_rackspace] [volume_3h; volume_1h; volume_other] [])
             example_now example_config false
             {| destroy := [volume_rackspace; volume_3h]; keep := [volume_1h; volume_other] |}).
    vm_compute. reflexivity.
  - apply (proj2 (@C1_plan_partitions_candidates reference_library)
             example_instances
             (example_cloud [node_3h; node_foreign; node_undated] [node_1h; node_stopped] [] [] [])
             example_now example_config false
             {| destroyed := [node_3h]; kept := [node_undated; node_1h] |}).
    vm_compute. reflexivity.
Defined.

(** ** C2: volume ownership *)

Section VolumeOwnership.
Context {L : Library}.

(** The mapping [_get_tag] subscripts: [extra["tags"]] when that key is
    present, otherwise [extra["metadata"]], otherwise [None]. *)
Lemma _get_tag_container volume tag_name :
  _get_tag volume tag_name
  = subscript
      (match volume_extra volume !! "tags" with
       | Some tags => tags
       | None =>
           match volume_extra volume !! "metadata" with
           | Some metadata => metadata
           | None => VNone
           end
       end) tag_name.
Proof. reflexivity. Qed.

Lemma uuid_node_48_bits int : uuid_node int = int mod 2 ^ 48 /\ 0 <= uuid_node int < 2 ^ 48.
Proof.
  unfold uuid_node. change 281474976710655 with (Z.ones 48).
  rewrite Z.land_ones by lia. split; [reflexivity |].
  apply Z.mod_pos_bound. lia.
Qed.

Lemma _is_test_cluster_returns self cluster_id :
  exists b, CleanVolumes._is_test_cluster self cluster_id = Ok b
    /\ (b = true <->
        exists int, UUID cluster_id = Ok int /\ uuid_node int = CleanVolumes.marker self).
Proof.
  unfold CleanVolumes._is_test_cluster.
  destruct (UUID cluster_id) as [int | e]; cbn [bind except_all].
  - exists (uuid_node int =? CleanVolumes.marker self). split; [reflexivity |].
    rewrite Z.eqb_eq. split.
    + intros H. exists int. auto.
    + intros (int' & [= <-] & H). exact H.
  - exists false. split; [reflexivity |].
    split; [discriminate | intros (int & [=] & _)].
Qed.

(** On a volume that carries a mapping of tags, [_is_test_volume] returns,
    and returns [True] exactly when the mapping has a cluster id that parses
    as a UUID whose node field is the marker. *)
Lemma _is_test_volume_tagged self volume (tags : gmap string pyatom) :
  dict_get (volume_extra volume) "tags" (dict_get (volume_extra volume) "metadata" VNone)
  = VDict tags ->
  exists b, CleanVolumes._is_test_volume self volume = Ok b
    /\ (b = true <->
        exists cluster_id int,
          tags !! "flocker-cluster-id" = Some cluster_id
          /\ UUID cluster_id = Ok int
          /\ uuid_node int = CleanVolumes.marker self).
Proof.
  intros Hc.
  unfold CleanVolumes._is_test_volume, CleanVolumes._get_cluster_id, _get_tag.
  rewrite Hc. cbn [subscript]. unfold getitem.
  destruct (tags !! "flocker-cluster-id") as [cluster_id |].
  - destruct (_is_test_cluster_returns self cluster_id) as (b & Hb & Hiff).
    exists b. split; [exact Hb |]. rewrite Hiff. split.
    + intros (int & H1 & H2). exists cluster_id, int. auto.
    + intros (c & int & [= <-] & H1 & H2). exists int. auto.
  - exists false. split; [reflexivity |].
    split; [discriminate | intros (c & int & [=] & _)].
Qed.

(** When what is subscripted is not a mapping, in particular [None] because
    [extra] has neither key, the subscript raises [TypeError], which the
    [except KeyError] of [_is_test_volume] lets through. *)
Lemma _is_test_volume_no_mapping self volume :
  (forall tags,
      dict_get (volume_extra volume) "tags" (dict_get (volume_extra volume) "metadata" VNone)
      <> VDict tags) ->
  CleanVolumes._is_test_volume self volume = Raise TypeError.
Proof.
  intros Hc.
  unfold CleanVolumes._is_test_volume, CleanVolumes._get_cluster_id, _get_tag.
  destruct (dict_get _ _ _) as [| | | | tags]; try reflexivity.
  destruct (Hc tags eq_refl).
Qed.

Lemma _is_test_volume_untagged self volume :
  volume_extra volume !! "tags" = None ->
  volume_extra volume !! "metadata" = None ->
  CleanVolumes._is_test_volume self volume = Raise TypeError.
Proof.
  intros Ht Hm. apply _is_test_volume_no_mapping. intros tags.
  unfold dict_get. rewrite Ht, Hm. discriminate.
Qed.

End VolumeOwnership.

(** C2 (the code departs from the claim).  On a volume whose [extra] has
    neither ["tags"] nor ["metadata"], and on one whose ["metadata"] is
    [None], the classification raises [TypeError] where the claim says it
    returns [False]. *)
Theorem C2_untagged_volume_raises :
  volume_extra volume_untagged !! "tags" = None
  /\ volume_extra volume_untagged !! "metadata" = None
  /\ CleanVolumes._is_test_volume (L := reference_library) example_volumes volume_untagged
     = Raise TypeError
  /\ volume_extra volume_no_metadata !! "metadata" = Some VNone
  /\ CleanVolumes._is_test_volume (L := reference_library) example_volumes volume_no_metadata
     = Raise TypeError.
Proof.
  repeat split; vm_compute; reflexivity.
Qed.

(** ** C3: instances of unknown age *)

Section UnknownAge.
Context {L : Library}.

Lemma get_creation_time_unknown node :
  node_extra node !! "created" = None ->
  node_extra node !! "launch_time" = None ->
  get_creation_time node = Ok None.
Proof.
  intros Hc Hl. unfold get_creation_time, dict_get. rewrite Hc, Hl. reflexivity.
Qed.

Lemma node_verdict_unknown cutoff node :
  get_creation_time node = Ok None -> node_verdict cutoff node = Ok false.
Proof. unfold node_verdict. intros ->. reflexivity. Qed.

End UnknownAge.

(** C3, as stated, fails: a node of unknown age whose name matches no prefix
    is not placed in the keep list (it is in neither list). *)
Lemma C3_foreign_undated_node_not_kept :
  exists plan,
    CleanAcceptanceInstances.start (L := reference_library) example_instances
      (example_cloud [node_foreign_undated] [] [] [] []) example_now example_config false
    = Ok plan
    /\ node_extra node_foreign_undated !! "created" = None
    /\ node_extra node_foreign_undated !! "launch_time" = None
    /\ ~ In node_foreign_undated (kept plan).
Proof.
  exists {| destroyed := []; kept := [] |}.
  split; [vm_compute; reflexivity |].
  split; [reflexivity |]. split; [reflexivity |].
  intros [].
Qed.

(** C3 (amended).  Whenever the instance plan is computed, an enumerated
    node without a ["created"] and without a ["launch_time"] field is never
    in the destroy list, and it is in the keep list exactly when it passes
    the name-and-state filter. *)
Theorem C3_unknown_age_never_destroyed {L : Library}
  self cloud now config dry_run plan all_nodes node :
  CleanAcceptanceInstances.start self cloud now config dry_run = Ok plan ->
  CleanAcceptanceInstances.list_all_nodes cloud [RackspaceDriver; EC2Driver 0] [] = Ok all_nodes ->
  In node all_nodes ->
  node_extra node !! "created" = None ->
  node_extra node !! "launch_time" = None ->
  ~ In node (destroyed plan)
  /\ (In node (kept plan)
      <-> CleanAcceptanceInstances.is_test_node (creator_prefixes self config) node = true).
Proof.
  intros H Hlist Hin Hc Hl.
  apply start_nodes_Ok in H as (all_nodes' & Hlist' & _ & Hd & Hk).
  rewrite Hlist in Hlist'. injection Hlist' as <-.
  pose proof (node_verdict_unknown (cutoff_of self now) node
                (get_creation_time_unknown node Hc Hl)) as Hv.
  rewrite Hd, Hk. split.
  - intros [_ Ht]%filter_In. rewrite (says_Ok _ _ _ _ Hv) in Ht. discriminate.
  - rewrite !filter_In, (says_Ok _ _ _ _ Hv). cbn [Bool.eqb]. tauto.
Qed.

Lemma C3_unknown_age_never_destroyed_witness :
  ~ In node_undated [node_3h]
  /\ (In node_undated [node_undated; node_1h]
      <-> CleanAcceptanceInstances.is_test_node
            (creator_prefixes example_instances example_config) node_undated = true).
Proof.
  apply (@C3_unknown_age_never_destroyed reference_library
           example_instances
           (example_cloud [node_3h; node_foreign; node_undated] [node_1h; node_stopped] [] [] [])
           example_now example_config false
           {| destroyed := [node_3h]; kept := [node_undated; node_1h] |}
           [node_3h; node_foreign; node_undated; node_1h; node_stopped]
           node_undated).
  - vm_compute. reflexivity.
  - vm_compute. reflexivity.
  - simpl. tauto.
  - reflexivity.
  - reflexivity.
Defined.

(** ** C4: which volumes are destroyed *)

Section VolumeDecision.
Context {L : Library}.

Lemma volume_verdict_true self now maximum_age v :
  volume_verdict self (now_utc now) maximum_age v = Ok true <-> overdue self now maximum_age v.
Proof.
  unfold volume_verdict, overdue. split.
  - intros H.
    apply bind_Ok_inv in H as (created & Hc & H).
    apply bind_Ok_inv in H as (test & Ht & H).
    destruct test; [| discriminate].
    apply bind_Ok_inv in H as (age & Ha & H).
    injection H as H. exists created, age. repeat split; try assumption.
    apply Z.gtb_gt, H.
  - intros (created & age & -> & -> & Ha & Hgt). cbn [bind]. rewrite Ha. cbn [bind].
    f_equal. apply Z.gtb_gt, Hgt.
Qed.

Lemma _get_volume_creation_time_unknown v :
  volume_extra v !! "create_time" = None ->
  volume_extra v !! "created_at" = None ->
  _get_volume_creation_time v = Raise KeyError.
Proof.
  intros Hc Ha. unfold _get_volume_creation_time, getitem. rewrite Hc, Ha. reflexivity.
Qed.

End VolumeDecision.

(** C4, as stated, fails: a volume of another owner whose creation time is
    unknown is not placed in the keep list; the planner raises [KeyError]
    and computes no plan. *)
Lemma C4_undated_volume_aborts_plan :
  CleanVolumes._is_test_volume (L := reference_library) example_volumes volume_undated
  = Ok false
  /\ CleanVolumes._filter_test_volumes (L := reference_library) example_volumes
       example_now (minutes 120) [volume_undated]
     = Raise KeyError.
Proof.
  split; vm_compute; reflexivity.
Qed.

(** C4 (amended).  Whenever the volume plan is computed, a listed volume is
    in the destroy list if and only if it is classified test-owned, its
    creation time is known and [now - created > lag]; otherwise it is in the
    keep list.  When a listed volume has neither a ["create_time"] nor a
    ["created_at"] field, the planner raises and computes no plan. *)
Theorem C4_volume_destroyed_iff_overdue {L : Library} :
  (forall self now maximum_age volumes plan v,
      CleanVolumes._filter_test_volumes self now maximum_age volumes = Ok plan ->
      In v volumes ->
      (In v (destroy plan) <-> overdue self now maximum_age v)
      /\ (In v (keep plan) <-> ~ overdue self now maximum_age v))
  /\ (forall self now maximum_age volumes v,
      In v volumes ->
      volume_extra v !! "create_time" = None ->
      volume_extra v !! "created_at" = None ->
      exists e, CleanVolumes._filter_test_volumes self now maximum_age volumes = Raise e).
Proof.
  split.
  - intros self now maximum_age volumes plan v H Hin.
    apply _filter_test_volumes_Ok in H as (Hall & Hd & Hk).
    rewrite Hd, Hk, !filter_In.
    rewrite List.Forall_forall in Hall. destruct (Hall v Hin) as [b Hb].
    rewrite !(says_Ok _ _ _ _ Hb), <- volume_verdict_true, Hb.
    destruct b; cbn [Bool.eqb]; split; split;
      try tauto; try (intros [_ [=]]); congruence.
  - intros self now maximum_age volumes v Hin Hc Ha.
    unfold CleanVolumes._filter_test_volumes.
    rewrite _filter_test_volumes_loop_split_by.
    destruct (split_by_Raise (volume_verdict self (now_utc now) maximum_age)
                volumes [] [] v KeyError Hin) as [e He].
    + unfold volume_verdict. rewrite (_get_volume_creation_time_unknown v Hc Ha). reflexivity.
    + exists e. rewrite He. reflexivity.
Qed.

Lemma C4_volume_destroyed_iff_overdue_witness :
  ((In volume_3h [volume_3h]
    <-> overdue (L := reference_library) example_volumes example_now (minutes 120) volume_3h)
   /\ (In volume_3h [volume_1h; volume_other]
       <-> ~ overdue (L := reference_library) example_volumes example_now (minutes 120)
               volume_3h))
  /\ (exists e,
        CleanVolumes._filter_test_volumes (L := reference_library) example_volumes example_now
          (minutes 120) [volume_3h; volume_undated] = Raise e).
Proof.
  split.
  - apply (proj1 (@C4_volume_destroyed_iff_overdue reference_library)
             example_volumes example_now (minutes 120) [volume_3h; volume_1h; volume_other]
             {| destroy := [volume_3h]; keep := [volume_1h; volume_other] |} volume_3h).
    + vm_compute. reflexivity.
    + simpl. tauto.
  - apply (proj2 (@C4_volume_destroyed_iff_overdue reference_library)
             example_volumes example_now (minutes 120) [volume_3h; volume_undated]
             volume_undated).
    + simpl. tauto.
    + reflexivity.
    + reflexivity.
Defined.

(** ** C5: instance ownership *)





(** The second scenario of the specification: the terminated node is
    accepted, the stopped one is not. *)
Example is_test_node_scenario :
  CleanAcceptanceInstances.is_test_node
    (creator_prefixes example_instances example_config) node_3h = true
  /\ CleanAcceptanceInstances.is_test_node
       (creator_prefixes example_instances example_config) node_stopped = false.
Proof. split; vm_compute; reflexivity. Qed.

(** ** C6: a shorter lag destroys at least as much *)

Section Monotone.
Context {L : Library}.

Lemma at_least_returns {A : Type} (verdict1 verdict2 : A -> result bool) (xs : list A) :
  at_least verdict1 verdict2 ->
  Forall (fun x => returns (verdict1 x)) xs ->
  Forall (fun x => returns (verdict2 x)) xs.
Proof.
  intros Hle Hall. eapply List.Forall_impl; [| exact Hall].
  intros x [b Hb]. destruct (Hle x b Hb) as (b' & Hb' & _). exists b'. exact Hb'.
Qed.

Lemma at_least_destroys {A : Type} (verdict1 verdict2 : A -> result bool) (xs : list A) x :
  at_least verdict1 verdict2 ->
  In x (List.filter (says verdict1 true) xs) ->
  In x (List.filter (says verdict2 true) xs).
Proof.
  intros Hle [Hin Hs]%filter_In. apply filter_In. split; [exact Hin |].
  unfold says in *. destruct (verdict1 x) as [[] |] eqn:H1; try discriminate.
  destruct (Hle x true H1) as (b' & -> & Hb'). rewrite Hb'; reflexivity.
Qed.

Lemma volume_verdict_at_least marker now lag1 lag2 :
  lag2 < lag1 ->
  at_least
    (volume_verdict {| CleanVolumes.lag := lag1; CleanVolumes.marker := marker |} now lag1)
    (volume_verdict {| CleanVolumes.lag := lag2; CleanVolumes.marker := marker |} now lag2).
Proof.
  intros Hlt v b. unfold volume_verdict.
  change (CleanVolumes._is_test_volume
            {| CleanVolumes.lag := lag2; CleanVolumes.marker := marker |} v)
    with (CleanVolumes._is_test_volume
            {| CleanVolumes.lag := lag1; CleanVolumes.marker := marker |} v).
  destruct (_get_volume_creation_time v) as [created |]; cbn [bind]; [| discriminate].
  destruct (CleanVolumes._is_test_volume _ v) as [[] |]; cbn [bind]; try discriminate.
  - destruct (datetime_sub_val now created) as [age |]; cbn [bind]; [| discriminate].
    intros [= <-]. eexists. split; [reflexivity |]. lia.
  - intros [= <-]. exists false. split; [reflexivity | discriminate].
Qed.

Lemma node_verdict_at_least prefixes now lag1 lag2 :
  lag2 < lag1 ->
  at_least
    (node_verdict
       (cutoff_of {| CleanAcceptanceInstances.lag := lag1;
                     CleanAcceptanceInstances.prefixes := prefixes |} now))
    (node_verdict
       (cutoff_of {| CleanAcceptanceInstances.lag := lag2;
                     CleanAcceptanceInstances.prefixes := prefixes |} now)).
Proof.
  intros Hlt n b. unfold node_verdict.
  destruct (get_creation_time n) as [[created |] |]; cbn [bind]; try discriminate.
  - unfold datetime_lt, cutoff_of. cbn [utcoffset wall CleanAcceptanceInstances.lag].
    destruct (utcoffset created) as [offset |]; [| discriminate].
    intros [= <-]. eexists. split; [reflexivity |]. lia.
  - intros [= <-]. exists false. split; [reflexivity | discriminate].
Qed.

Lemma representable_spec w :
  representable w = true <-> datetime_min_wall <= w <= datetime_max_wall.
Proof. unfold representable. rewrite andb_true_iff, !Z.leb_le. reflexivity. Qed.

End Monotone.

(** C6, as stated, fails for instances: with the clock at 2015-06-01 a node
    is destroyed under a lag of 120 minutes, but under the shorter lag of
    -4320000000 minutes (three million days into the future) the cut-off
    [now - lag] lies after the year 9999, the subtraction raises
    [OverflowError] and no plan is computed. *)
Lemma C6_far_future_cutoff_overflows :
  minutes (-4320000000) < minutes 120
  /\ (exists plan,
        CleanAcceptanceInstances.start (L := reference_library)
          {| CleanAcceptanceInstances.lag := minutes 120;
             CleanAcceptanceInstances.prefixes := ["acceptance-test-"; "client-test-"] |}
          (example_cloud [node_3h] [] [] [] []) example_now example_config false = Ok plan
        /\ In node_3h (destroyed plan))
  /\ CleanAcceptanceInstances.start (L := reference_library)
       {| CleanAcceptanceInstances.lag := minutes (-4320000000);
          CleanAcceptanceInstances.prefixes := ["acceptance-test-"; "client-test-"] |}
       (example_cloud [node_3h] [] [] [] []) example_now example_config false
     = Raise OverflowError.
Proof.
  split; [reflexivity |]. split.
  - exists {| destroyed := [node_3h]; kept := [] |}.
    split; [vm_compute; reflexivity | left; reflexivity].
  - vm_compute. reflexivity.
Qed.

(** C6 (amended).  With the clock and the listings fixed, a resource that
    the plan computed under lag [lag1] destroys is also destroyed by the
    plan under any shorter lag [lag2], and that plan is computed too: for
    volumes always; for instances when the cut-off [now - lag2] is not after
    [datetime.max].  When it is, the instance planner raises
    [OverflowError] and computes no plan. *)
Theorem C6_destroy_monotone_in_lag {L : Library} :
  (forall marker lag1 lag2 cloud now config dry_run plan v,
      lag2 < lag1 ->
      CleanVolumes.start {| CleanVolumes.lag := lag1; CleanVolumes.marker := marker |}
        cloud now config dry_run = Ok plan ->
      In v (destroy plan) ->
      exists plan',
        CleanVolumes.start {| CleanVolumes.lag := lag2; CleanVolumes.marker := marker |}
          cloud now config dry_run = Ok plan'
        /\ In v (destroy plan'))
  /\ (forall prefixes lag1 lag2 cloud now config dry_run plan n,
      lag2 < lag1 ->
      now - lag2 <= datetime_max_wall ->
      CleanAcceptanceInstances.start
        {| CleanAcceptanceInstances.lag := lag1; CleanAcceptanceInstances.prefixes := prefixes |}
        cloud now config dry_run = Ok plan ->
      In n (destroyed plan) ->
      exists plan',
        CleanAcceptanceInstances.start
          {| CleanAcceptanceInstances.lag := lag2;
             CleanAcceptanceInstances.prefixes := prefixes |}
          cloud now config dry_run = Ok plan'
        /\ In n (destroyed plan'))
  /\ (forall prefixes lag2 cloud now config dry_run,
      datetime_max_wall < now - lag2 ->
      CleanAcceptanceInstances.start
        {| CleanAcceptanceInstances.lag := lag2; CleanAcceptanceInstances.prefixes := prefixes |}
        cloud now config dry_run = Raise OverflowError).
Proof.
  split; [| split].
  - intros marker lag1 lag2 cloud now config dry_run plan v Hlt H Hin.
    pose proof (volume_verdict_at_least marker (now_utc now) lag1 lag2 Hlt) as Hle.
    unfold CleanVolumes.start in *. cbn [CleanVolumes.lag] in *.
    apply bind_Ok_inv in H as (volumes & -> & H). cbn [bind].
    apply _filter_test_volumes_Ok in H as (Hall & Hd & _).
    rewrite _filter_test_volumes_total by (eapply at_least_returns; eassumption).
    eexists. split; [reflexivity |]. cbn [destroy].
    rewrite Hd in Hin. eapply at_least_destroys; eassumption.
  - intros prefixes lag1 lag2 cloud now config dry_run plan n Hlt Hmax H Hin.
    pose proof (node_verdict_at_least prefixes now lag1 lag2 Hlt) as Hle.
    pose proof (start_nodes_cutoff _ _ _ _ _ _ H) as Hr1.
    apply representable_spec in Hr1. cbn [CleanAcceptanceInstances.lag] in Hr1.
    assert (Hr2 : representable (now - lag2) = true).
    { apply representable_spec. lia. }
    rewrite start_nodes_unfold in *.
    cbn [CleanAcceptanceInstances.lag] in *. rewrite Hr2.
    destruct (representable (now - lag1)); [| discriminate].
    apply bind_Ok_inv in H as (all_nodes & -> & H). cbn [bind].
    rewrite split_nodes_split_by in *.
    apply bind_Ok_inv in H as ([ds ks] & H & [= <-]).
    apply split_by_Ok in H as (Hall & -> & _). cbn [destroyed fst app] in Hin.
    unfold creator_prefixes in *. cbn [CleanAcceptanceInstances.prefixes] in *.
    rewrite (split_by_total _ _ [] []) by (eapply at_least_returns; eassumption).
    eexists. split; [reflexivity |]. cbn [destroyed fst app].
    eapply at_least_destroys; eassumption.
  - intros prefixes lag2 cloud now config dry_run Hmax.
    rewrite start_nodes_unfold. cbn [CleanAcceptanceInstances.lag].
    destruct (representable (now - lag2)) eqn:Hr; [| reflexivity].
    apply representable_spec in Hr. lia.
Qed.

Lemma C6_destroy_monotone_in_lag_witness :
  (exists plan',
      CleanVolumes.start (L := reference_library)
        {| CleanVolumes.lag := minutes 30; CleanVolumes.marker := example_marker |}
        (example_cloud [] [] [volume_rackspace] [volume_3h; volume_1h; volume_other] [])
        example_now example_config false = Ok plan'
      /\ In volume_3h (destroy plan'))
  /\ (exists plan',
      CleanAcceptanceInstances.start (L := reference_library)
        {| CleanAcceptanceInstances.lag := minutes 30;
           CleanAcceptanceInstances.prefixes := ["acceptance-test-"; "client-test-"] |}
        (example_cloud [node_3h; node_foreign; node_undated] [node_1h; node_stopped] [] [] [])
        example_now example_config false = Ok plan'
      /\ In node_3h (destroyed plan'))
  /\ CleanAcceptanceInstances.start (L := reference_library)
       {| CleanAcceptanceInstances.lag := minutes (-4320000000);
          CleanAcceptanceInstances.prefixes := ["acceptance-test-"; "client-test-"] |}
       (example_cloud [node_3h; node_foreign; node_undated] [node_1h; node_stopped] [] [] [])
       example_now example_config false
     = Raise OverflowError.
Proof.
  split; [| split].
  - apply (proj1 (@C6_destroy_monotone_in_lag reference_library)
             example_marker (minutes 120) (minutes 30)
             (example_cloud [] [] [volume_rackspace] [volume_3h; volume_1h; volume_other] [])
             example_now example_config false
             {| destroy := [volume_rackspace; volume_3h]; keep := [volume_1h; volume_other] |}
             volume_3h).
    + vm_compute. reflexivity.
    + vm_compute. reflexivity.
    + simpl. tauto.
  - apply (proj1 (proj2 (@C6_destroy_monotone_in_lag reference_library))
             ["acceptance-test-"; "client-test-"] (minutes 120) (minutes 30)
             (example_cloud [node_3h; node_foreign; node_undated] [node_1h; node_stopped] [] [] [])
             example_now example_config false
             {| destroyed := [node_3h]; kept := [node_undated; node_1h] |}
             node_3h).
    + vm_compute. reflexivity.
    + vm_compute. discriminate.
    + vm_compute. reflexivity.
    + simpl. tauto.
  - apply (proj2 (proj2 (@C6_destroy_monotone_in_lag reference_library))
             ["acceptance-test-"; "client-test-"] (minutes (-4320000000))
             (example_cloud [node_3h; node_foreign; node_undated] [node_1h; node_stopped] [] [] [])
             example_now example_config false).
    vm_compute. reflexivity.
Defined.

(** The bounds are the first and the last second of the calendar, as the
    calendar function of the examples computes them. *)
Example datetime_bounds_are_calendar_bounds :
  civil_wall 1 1 1 0 0 0 = Some datetime_min_wall
  /\ civil_wall 9999 12 31 23 59 59 = Some (datetime_max_wall - 999999).
Proof. split; vm_compute; reflexivity. Qed.

(** ** C7: the dry-run flag *)

(** C7.  The plan [start] returns does not depend on [dry_run], for volumes
    and for instances; nor does the outcome of the command. *)
Theorem C7_dry_run_does_not_change_plan {L : Library}
  (volumes : CleanVolumes.t) (instances : CleanAcceptanceInstances.t)
  (cloud : Cloud) (now : Z) (config : Config) (dry_run dry_run' : bool) :
  CleanVolumes.start volumes cloud now config dry_run
  = CleanVolumes.start volumes cloud now config dry_run'
  /\ CleanAcceptanceInstances.start instances cloud now config dry_run
     = CleanAcceptanceInstances.start instances cloud now config dry_run'
  /\ (forall volume_lag instance_lag marker prefixes,
        cleanup_cloud_resources_main
          (Some {| opt_dry_run := dry_run; opt_config_file := config;
                   opt_volume_lag := volume_lag; opt_instance_lag := instance_lag;
                   opt_marker := marker; opt_instance_name_prefixes := prefixes |})
          cloud now
        = cleanup_cloud_resources_main
            (Some {| opt_dry_run := dry_run'; opt_config_file := config;
                     opt_volume_lag := volume_lag; opt_instance_lag := instance_lag;
                     opt_marker := marker; opt_instance_name_prefixes := prefixes |})
            cloud now).
Proof.
  split; [| split].
  - unfold CleanVolumes.start. reflexivity.
  - unfold CleanAcceptanceInstances.start. reflexivity.
  - intros. unfold cleanup_cloud_resources_main, CleanAcceptanceInstances.start.
    reflexivity.
Qed.

(** ** C8: the exit signal *)

Lemma do_exit_VolumeActions (groups : list VolumeActions) :
  (do_exit (map VolumeActionsObject groups) = Raise (SystemExit 1)
   <-> exists g, In g groups /\ destroy g <> [])
  /\ (do_exit (map VolumeActionsObject groups) = Ok tt
      <-> forall g, In g groups -> destroy g = []).
Proof.
  induction groups as [| g rest [IH1 IH2]]; cbn [map do_exit attr_destroy bind].
  - split; split; try discriminate; try reflexivity.
    + intros (g & [] & _).
    + intros _ g [].
  - destruct (destroy g) as [| r rs] eqn:Hg; cbn [length].
    + change (Z.of_nat 0 >? 0) with false. cbv iota. rewrite IH1, IH2. split; split.
      * intros (g' & Hin & Hne). exists g'. split; [right; exact Hin | exact Hne].
      * intros (g' & [<- | Hin] & Hne); [congruence | eauto].
      * intros H g' [<- | Hin]; [exact Hg | auto].
      * intros H g' Hin. apply H. right. exact Hin.
    + replace (Z.of_nat (S (length rs)) >? 0) with true by (symmetry; apply Z.gtb_gt; lia).
      cbv iota. split; split; try discriminate.
      * intros _. exists g. split; [left; reflexivity | congruence].
      * reflexivity.
      * intros H. specialize (H g (or_introl eq_refl)). congruence.
Qed.

Section ExitSignal.
Context {L : Library}.

(** The dictionary of [CleanAcceptanceInstances.start] has no attribute
    [destroy]: whatever the plan, the command does not exit with status 0. *)
Lemma main_exit_status_with_plan options cloud now plan :
  CleanAcceptanceInstances.start
    {| CleanAcceptanceInstances.lag := opt_instance_lag options;
       CleanAcceptanceInstances.prefixes := opt_instance_name_prefixes options |}
    cloud now (opt_config_file options) (opt_dry_run options) = Ok plan ->
  exit_status (cleanup_cloud_resources_main (Some options) cloud now) = 1.
Proof.
  intros H. unfold cleanup_cloud_resources_main. rewrite H.
  unfold print_actions. cbn [bind _dumps _ActionEncoder].
  destruct (destroyed plan ++ kept plan)%list; reflexivity.
Qed.

End ExitSignal.

(** C8 (the code departs from the claim).  With no node listed the plan
    destroys nothing, yet the command ends with [AttributeError] and exit
    status 1. *)
Theorem C8_empty_plan_exits_nonzero :
  CleanAcceptanceInstances.start (L := reference_library) example_instances
    (example_cloud [] [] [] [] []) example_now example_config false
  = Ok {| destroyed := []; kept := [] |}
  /\ cleanup_cloud_resources_main (L := reference_library) (Some example_options)
       (example_cloud [] [] [] [] []) example_now
     = Raise AttributeError
  /\ exit_status
       (cleanup_cloud_resources_main (L := reference_library) (Some example_options)
          (example_cloud [] [] [] [] []) example_now)
     = 1.
Proof.
  split; [| split]; vm_compute; reflexivity.
Qed.

(** ** C9: the executor *)

Section Executor.
Variable cloud : Cloud.

Lemma destroy_each_spec (resources : list StorageVolume) (w : World) :
  destroy_each cloud resources w
  = {| attempts := attempts w ++ resources;
       log := log w ++ failures cloud (attempts w) resources |}.
Proof.
  revert w. induction resources as [| resource rest IH]; intros w.
  - cbn [destroy_each failures]. rewrite !app_nil_r. destruct w; reflexivity.
  - cbn [destroy_each failures]. rewrite IH. unfold destroy_resource.
    destruct (destroy_volume cloud (attempts w) resource) as [ok | e];
      cbn [attempts log]; rewrite <- !app_assoc; reflexivity.
Qed.

Lemma failures_app (prior before after : list StorageVolume) :
  failures cloud prior (before ++ after)
  = (failures cloud prior before ++ failures cloud (prior ++ before) after)%list.
Proof.
  revert prior. induction before as [| resource rest IH]; intros prior.
  - cbn [failures app]. rewrite app_nil_r. reflexivity.
  - cbn [failures app]. rewrite IH, <- !app_assoc. reflexivity.
Qed.

Lemma failures_logged (prior before after : list StorageVolume) resource e :
  destroy_volume cloud (prior ++ before) resource = Raise e ->
  In (e, "Destroying resource.") (failures cloud prior (before ++ resource :: after)).
Proof.
  intros H. rewrite failures_app. apply in_or_app. right.
  cbn [failures]. rewrite H. left. reflexivity.
Qed.

Lemma failures_length (prior resources : list StorageVolume) :
  (length (failures cloud prior resources) <= length resources)%nat.
Proof.
  revert prior. induction resources as [| resource rest IH]; intros prior;
    cbn [failures]; [reflexivity |].
  specialize (IH (prior ++ [resource])%list). cbn [length].
  rewrite length_app.
  destruct (destroy_volume cloud prior resource); cbn [length]; lia.
Qed.

Lemma perform_actions_VolumeActions (groups : list VolumeActions) (w : World) :
  perform_actions cloud (map VolumeActionsObject groups) w
  = (Ok tt, destroy_each cloud (concat (map destroy groups)) w).
Proof.
  revert w. induction groups as [| g rest IH]; intros w; [reflexivity |].
  cbn [map perform_actions attr_destroy concat]. rewrite IH.
  f_equal. clear IH. revert w.
  induction (destroy g) as [| r rs IHr]; intros w; [reflexivity |].
  cbn [app destroy_each]. apply IHr.
Qed.

End Executor.

(** C9.  Run on plans that carry a [destroy] list, the executor returns
    normally; the destroy calls it makes are exactly the resources of the
    destroy lists, each once and in order, whatever the outcome of the
    calls before; and every call that raises leaves an entry in the log. *)
Theorem C9_each_resource_attempted_once (cloud : Cloud) (groups : list VolumeActions)
  (w : World) :
  let resources := concat (map destroy groups) in
  let outcome := perform_actions cloud (map VolumeActionsObject groups) w in
  fst outcome = Ok tt
  /\ attempts (snd outcome) = (attempts w ++ resources)%list
  /\ (forall before resource after e,
        resources = (before ++ resource :: after)%list ->
        destroy_volume cloud (attempts w ++ before) resource = Raise e ->
        In (e, "Destroying resource.") (log (snd outcome)))
  /\ (exists entries,
        log (snd outcome) = (log w ++ entries)%list
        /\ (length entries <= length resources)%nat).
Proof.
  intros resources outcome. subst outcome.
  rewrite perform_actions_VolumeActions, destroy_each_spec. fold resources.
  cbn [fst snd attempts log].
  split; [reflexivity |]. split; [reflexivity |]. split.
  - intros before resource after e -> H.
    apply in_or_app. right. apply failures_logged, H.
  - eexists. split; [reflexivity | apply failures_length].
Qed.

(** Two volumes to destroy, the first of which fails: both are attempted,
    one entry is logged. *)
Example perform_actions_isolates_failure :
  perform_actions (example_cloud [] [] [] [] ["vol-3h"])
    [VolumeActionsObject {| destroy := [volume_3h; volume_rackspace]; keep := [volume_1h] |}]
    {| attempts := []; log := [] |}
  = (Ok tt,
     {| attempts := [volume_3h; volume_rackspace];
        log := [(ProviderError "destroy failed", "Destroying resource.")] |}).
Proof. vm_compute. reflexivity. Qed.

Lemma C9_each_resource_attempted_once_witness :
  In (ProviderError "destroy failed", "Destroying resource.")
     (log (snd (perform_actions (example_cloud [] [] [] [] ["vol-3h"])
                  (map VolumeActionsObject
                       [{| destroy := [volume_3h; volume_rackspace]; keep := [volume_1h] |}])
                  {| attempts := []; log := [] |}))).
Proof.
  apply (proj1 (proj2 (proj2 (C9_each_resource_attempted_once
                                (example_cloud [] [] [] [] ["vol-3h"])
                                [{| destroy := [volume_3h; volume_rackspace];
                                    keep := [volume_1h] |}]
                                {| attempts := []; log := [] |})))
           [] volume_3h [volume_rackspace] (ProviderError "destroy failed")).
  - reflexivity.
  - vm_compute. reflexivity.
Defined.

(** The plan of [CleanAcceptanceInstances.start] is a dictionary: handed to
    the executor it raises before any destroy call. *)
Example perform_actions_on_dictionary (cloud : Cloud) (plan : NodeActions) (w : World) :
  perform_actions cloud [NodeActionsDict plan] w = (Raise AttributeError, w).
Proof. reflexivity. Qed.

(** ** C10: the plan keeps the order of enumeration *)

Section Order.
Context {L : Library}.

Lemma _get_cloud_volumes_from_concat cloud drivers volumes all :
  CleanVolumes._get_cloud_volumes_from cloud drivers volumes = Ok all ->
  exists listings,
    Forall2 (fun d l => list_volumes cloud d = Ok l) drivers listings
    /\ all = (volumes ++ concat listings)%list.
Proof.
  revert volumes. induction drivers as [| d rest IH]; intros volumes H;
    cbn [CleanVolumes._get_cloud_volumes_from] in H.
  - injection H as <-. exists []. split; [constructor | cbn; now rewrite app_nil_r].
  - apply bind_Ok_inv in H as (listed & Hd & H).
    apply IH in H as (listings & Hall & ->).
    exists (listed :: listings). split; [constructor; assumption |].
    cbn [concat]. rewrite app_assoc. reflexivity.
Qed.

Lemma list_all_nodes_concat cloud drivers nodes all :
  CleanAcceptanceInstances.list_all_nodes cloud drivers nodes = Ok all ->
  exists listings,
    Forall2 (fun d l => list_nodes cloud d = Ok l) drivers listings
    /\ all = (nodes ++ concat listings)%list.
Proof.
  revert nodes. induction drivers as [| d rest IH]; intros nodes H;
    cbn [CleanAcceptanceInstances.list_all_nodes] in H.
  - injection H as <-. exists []. split; [constructor | cbn; now rewrite app_nil_r].
  - apply bind_Ok_inv in H as (listed & Hd & H).
    apply IH in H as (listings & Hall & ->).
    exists (listed :: listings). split; [constructor; assumption |].
    cbn [concat]. rewrite app_assoc. reflexivity.
Qed.

Lemma filter_says_false {A : Type} (verdict : A -> result bool) (xs : list A) :
  Forall (fun x => returns (verdict x)) xs ->
  List.filter (says verdict false) xs
  = List.filter (fun x => negb (says verdict true x)) xs.
Proof.
  intros Hall. apply filter_ext_in. intros x Hin.
  rewrite List.Forall_forall in Hall. apply says_cases, Hall, Hin.
Qed.

End Order.

(** C10.  Whenever a plan is computed, its two lists are the enumerated
    resources (the provider listings one after the other, for instances
    restricted to the nodes that pass the name-and-state filter) split by a
    predicate: each list keeps the order of enumeration. *)
Theorem C10_plan_keeps_enumeration_order {L : Library} :
  (forall self cloud now config dry_run plan,
      CleanVolumes.start self cloud now config dry_run = Ok plan ->
      exists listings destroys,
        Forall2 (fun d l => list_volumes cloud d = Ok l)
                (CleanVolumes._get_cloud_drivers config) listings
        /\ destroy plan = List.filter destroys (concat listings)
        /\ keep plan = List.filter (fun v => negb (destroys v)) (concat listings))
  /\ (forall self cloud now config dry_run plan,
      CleanAcceptanceInstances.start self cloud now config dry_run = Ok plan ->
      exists listings destroys,
        Forall2 (fun d l => list_nodes cloud d = Ok l)
                [RackspaceDriver; EC2Driver 0] listings
        /\ let test_nodes :=
             List.filter (CleanAcceptanceInstances.is_test_node (creator_prefixes self config))
                         (concat listings) in
           destroyed plan = List.filter destroys test_nodes
           /\ kept plan = List.filter (fun n => negb (destroys n)) test_nodes).
Proof.
  split.
  - intros self cloud now config dry_run plan H.
    apply start_volumes_Ok in H as (volumes & Hlist & H).
    apply _get_cloud_volumes_from_concat in Hlist as (listings & Hall & ->).
    apply _filter_test_volumes_Ok in H as (Hret & Hd & Hk).
    exists listings. eexists. split; [exact Hall |].
    cbn [app] in *. split; [exact Hd |].
    rewrite Hk. apply filter_says_false, Hret.
  - intros self cloud now config dry_run plan H.
    apply start_nodes_Ok in H as (all_nodes & Hlist & Hret & Hd & Hk).
    apply list_all_nodes_concat in Hlist as (listings & Hall & ->).
    exists listings. eexists. split; [exact Hall |].
    cbn [app] in *. split; [exact Hd |].
    rewrite Hk. apply filter_says_false, Hret.
Qed.

Lemma C10_plan_keeps_enumeration_order_witness :
  (exists listings destroys,
      Forall2 (fun d l =>
                 list_volumes
                   (example_cloud [] [] [volume_1h; volume_rackspace]
                                  [volume_3h; volume_other] []) d = Ok l)
              (CleanVolumes._get_cloud_drivers example_config) listings
      /\ [volume_rackspace; volume_3h] = List.filter destroys (concat listings)
      /\ [volume_1h; volume_other] = List.filter (fun v => negb (destroys v)) (concat listings))
  /\ (exists listings destroys,
      Forall2 (fun d l =>
                 list_nodes
                   (example_cloud [node_3h; node_foreign; node_undated]
                                  [node_1h; node_stopped] [] [] []) d = Ok l)
              [RackspaceDriver; EC2Driver 0] listings
      /\ let test_nodes :=
           List.filter
             (CleanAcceptanceInstances.is_test_node
                (creator_prefixes example_instances example_config))
             (concat listings) in
         [node_3h] = List.filter destroys test_nodes
         /\ [node_undated; node_1h] = List.filter (fun n => negb (destroys n)) test_nodes).
Proof.
  split.
  - apply (proj1 (@C10_plan_keeps_enumeration_order reference_library)
             example_volumes
             (example_cloud [] [] [volume_1h; volume_rackspace] [volume_3h; volume_other] [])
             example_now example_config false
             {| destroy := [volume_rackspace; volume_3h]; keep := [volume_1h; volume_other] |}).
    vm_compute. reflexivity.
  - apply (proj2 (@C10_plan_keeps_enumeration_order reference_library)
             example_instances
             (example_cloud [node_3h; node_foreign; node_undated] [node_1h; node_stopped] [] [] [])
             example_now example_config false
             {| destroyed := [node_3h]; kept := [node_undated; node_1h] |}).
    vm_compute. reflexivity.
Defined.

(** * Further properties of the code *)

(** ** Which mapping carries the ownership tag *)

(** X1.  When [extra] has a ["tags"] mapping, the classification returns and
    is decided by that mapping alone, whatever ["metadata"] holds: a cluster
    id found only under ["metadata"] is not seen.  Only when the ["tags"]
    key is absent is the ["metadata"] mapping consulted. *)
Theorem is_test_volume_reads_one_mapping {L : Library} :
  (forall self volume tags,
      volume_extra volume !! "tags" = Some (VDict tags) ->
      exists b,
        CleanVolumes._is_test_volume self volume = Ok b
        /\ (b = true <->
            exists cluster_id int,
              tags !! "flocker-cluster-id" = Some cluster_id
              /\ UUID cluster_id = Ok int
              /\ uuid_node int = CleanVolumes.marker self))
  /\ (forall self volume metadata,
      volume_extra volume !! "tags" = None ->
      volume_extra volume !! "metadata" = Some (VDict metadata) ->
      exists b,
        CleanVolumes._is_test_volume self volume = Ok b
        /\ (b = true <->
            exists cluster_id int,
              metadata !! "flocker-cluster-id" = Some cluster_id
              /\ UUID cluster_id = Ok int
              /\ uuid_node int = CleanVolumes.marker self)).
Proof.
  split.
  - intros self volume tags Ht. apply _is_test_volume_tagged.
    unfold dict_get at 1. rewrite Ht. reflexivity.
  - intros self volume metadata Ht Hm. apply _is_test_volume_tagged.
    unfold dict_get. rewrite Ht, Hm. reflexivity.
Qed.

Lemma is_test_volume_reads_one_mapping_witness :
  (exists b,
      CleanVolumes._is_test_volume (L := reference_library) example_volumes
        volume_tags_shadow_metadata = Ok b
      /\ (b = true <->
          exists cluster_id int,
            ({[ "Name" := AStr "scratch" ]} : gmap string pyatom) !! "flocker-cluster-id"
            = Some cluster_id
            /\ uuid_hex cluster_id = Ok int
            /\ uuid_node int = example_marker))
  /\ (exists b,
      CleanVolumes._is_test_volume (L := reference_library) example_volumes
        volume_rackspace = Ok b
      /\ (b = true <->
          exists cluster_id int,
            ({[ "flocker-cluster-id" := test_cluster_id ]} : gmap string pyatom)
              !! "flocker-cluster-id" = Some cluster_id
            /\ uuid_hex cluster_id = Ok int
            /\ uuid_node int = example_marker)).
Proof.
  split.
  - apply (proj1 (@is_test_volume_reads_one_mapping reference_library)
             example_volumes volume_tags_shadow_metadata {[ "Name" := AStr "scratch" ]}).
    vm_compute. reflexivity.
  - apply (proj2 (@is_test_volume_reads_one_mapping reference_library)
             example_volumes volume_rackspace {[ "flocker-cluster-id" := test_cluster_id ]}).
    + vm_compute. reflexivity.
    + vm_compute. reflexivity.
Defined.

(** ** A marker that no UUID can carry *)

Lemma filter_says_all_false {A : Type} (verdict : A -> result bool) (xs : list A) :
  (forall x, In x xs -> verdict x = Ok false) ->
  List.filter (says verdict true) xs = []
  /\ List.filter (says verdict false) xs = xs.
Proof.
  induction xs as [| x rest IH]; intros H; [split; reflexivity |].
  cbn [List.filter]. rewrite !(says_Ok _ _ _ _ (H x (or_introl eq_refl))).
  cbn [Bool.eqb]. destruct IH as [IH1 IH2].
  { intros y Hin. apply H. right. exact Hin. }
  rewrite IH1, IH2. split; reflexivity.
Qed.

(** X2.  The node field of a UUID has 48 bits.  With a marker outside
    [0 .. 2^48 - 1] no cluster id is classified as a test cluster, and a
    computed volume plan destroys nothing. *)
Theorem marker_out_of_range_destroys_nothing {L : Library}
  self now maximum_age volumes plan :
  ~ (0 <= CleanVolumes.marker self < 2 ^ 48) ->
  CleanVolumes._filter_test_volumes self now maximum_age volumes = Ok plan ->
  (forall cluster_id, CleanVolumes._is_test_cluster self cluster_id = Ok false)
  /\ destroy plan = []
  /\ keep plan = volumes.
Proof.
  intros Hm H.
  assert (Hc : forall cluster_id, CleanVolumes._is_test_cluster self cluster_id = Ok false).
  { intros cluster_id.
    destruct (_is_test_cluster_returns self cluster_id) as (b & Hb & Hiff).
    destruct b; [| exact Hb].
    destruct (proj1 Hiff eq_refl) as (int & _ & Hnode).
    pose proof (proj2 (uuid_node_48_bits int)) as Hrange. rewrite Hnode in Hrange.
    contradiction. }
  split; [exact Hc |].
  apply _filter_test_volumes_Ok in H as (Hall & Hd & Hk).
  assert (Hv : forall v, In v volumes ->
             volume_verdict self (now_utc now) maximum_age v = Ok false).
  { intros v Hin. rewrite List.Forall_forall in Hall.
    destruct (Hall v Hin) as [b Hb]. destruct b; [| exact Hb].
    apply volume_verdict_true in Hb as (created & age & _ & Ht & _).
    unfold CleanVolumes._is_test_volume in Ht.
    destruct (CleanVolumes._get_cluster_id v) as [cluster_id | []]; try discriminate.
    rewrite Hc in Ht. discriminate. }
  rewrite Hd, Hk. apply filter_says_all_false, Hv.
Qed.

Lemma marker_out_of_range_destroys_nothing_witness :
  (forall cluster_id,
      CleanVolumes._is_test_cluster (L := reference_library)
        {| CleanVolumes.lag := minutes 120; CleanVolumes.marker := 2 ^ 48 + example_marker |}
        cluster_id = Ok false)
  /\ @destroy {| destroy := []; keep := [volume_3h; volume_1h] |} = []
  /\ @keep {| destroy := []; keep := [volume_3h; volume_1h] |} = [volume_3h; volume_1h].
Proof.
  apply (@marker_out_of_range_destroys_nothing reference_library
           {| CleanVolumes.lag := minutes 120; CleanVolumes.marker := 2 ^ 48 + example_marker |}
           example_now (minutes 120) [volume_3h; volume_1h]
           {| destroy := []; keep := [volume_3h; volume_1h] |}).
  - cbn [CleanVolumes.marker]. unfold example_marker. lia.
  - vm_compute. reflexivity.
Defined.

(** ** Where a volume's creation time comes from *)

(** X3.  A ["create_time"] field is returned as it is, without consulting
    the parser or ["created_at"].  Without it, ["created_at"] is parsed and
    stamped as UTC whatever offset the parser found: the age computed from
    it is [now] minus its wall clock; a parser failure is passed on. *)
Theorem volume_creation_time_sources {L : Library} :
  (forall volume created,
      volume_extra volume !! "create_time" = Some created ->
      _get_volume_creation_time volume = Ok created)
  /\ (forall volume created_at parsed now,
      volume_extra volume !! "create_time" = None ->
      volume_extra volume !! "created_at" = Some created_at ->
      parse_date created_at = Ok parsed ->
      _get_volume_creation_time volume
      = Ok (VDatetime {| wall := wall parsed; utcoffset := Some 0 |})
      /\ datetime_sub_val (now_utc now) (VDatetime {| wall := wall parsed; utcoffset := Some 0 |})
         = Ok (now - wall parsed))
  /\ (forall volume created_at e,
      volume_extra volume !! "create_time" = None ->
      volume_extra volume !! "created_at" = Some created_at ->
      parse_date created_at = Raise e ->
      _get_volume_creation_time volume = Raise e).
Proof.
  unfold _get_volume_creation_time, getitem. split; [| split].
  - intros volume created ->. reflexivity.
  - intros volume created_at parsed now -> -> Hp. cbn [except_KeyError bind].
    rewrite Hp. cbn [bind]. split; [reflexivity |].
    unfold datetime_sub_val, datetime_sub, now_utc. cbn [utcoffset wall].
    f_equal. lia.
  - intros volume created_at e -> -> Hp. cbn [except_KeyError bind].
    rewrite Hp. reflexivity.
Qed.

Lemma volume_creation_time_sources_witness :
  _get_volume_creation_time (L := reference_library) volume_3h
  = Ok (aware (example_now - minutes 180))
  /\ (_get_volume_creation_time (L := reference_library) volume_rackspace
      = Ok (VDatetime {| wall := 1433149200000000; utcoffset := Some 0 |})
      /\ datetime_sub_val (now_utc example_now)
           (VDatetime {| wall := 1433149200000000; utcoffset := Some 0 |})
         = Ok (example_now - 1433149200000000))
  /\ _get_volume_creation_time (L := reference_library)
       (rackspace_volume "rs-bad" "yesterday" test_cluster_id)
     = Raise ValueError.
Proof.
  split; [| split].
  - apply (proj1 (@volume_creation_time_sources reference_library) volume_3h).
    vm_compute. reflexivity.
  - apply (proj1 (proj2 (@volume_creation_time_sources reference_library))
             volume_rackspace (VStr "2015-06-01T09:00:00")
             {| wall := 1433149200000000; utcoffset := None |} example_now).
    + vm_compute. reflexivity.
    + vm_compute. reflexivity.
    + vm_compute. reflexivity.
  - apply (proj2 (proj2 (@volume_creation_time_sources reference_library))
             (rackspace_volume "rs-bad" "yesterday" test_cluster_id) (VStr "yesterday")).
    + vm_compute. reflexivity.
    + vm_compute. reflexivity.
    + vm_compute. reflexivity.
Defined.

(** ** Which instances are destroyed *)

Section InstanceDecision.
Context {L : Library}.

Lemma node_verdict_true self now node :
  node_verdict (cutoff_of self now) node = Ok true
  <-> exists created offset,
        get_creation_time node = Ok (Some created)
        /\ utcoffset created = Some offset
        /\ wall created - offset < now - CleanAcceptanceInstances.lag self.
Proof.
  unfold node_verdict, cutoff_of, datetime_lt, datetime_sub_delta, now_utc.
  cbn [utcoffset wall]. split.
  - destruct (get_creation_time node) as [[created |] |]; cbn [bind]; try discriminate.
    destruct (utcoffset created) as [offset |] eqn:Ho; [| discriminate].
    intros [= H]. exists created, offset. repeat split; try assumption.
    apply Z.ltb_lt in H. lia.
  - intros (created & offset & -> & Ho & Hlt). cbn [bind]. rewrite Ho.
    f_equal. apply Z.ltb_lt. lia.
Qed.


End InstanceDecision.

(** X4.  A ["created"] field that holds [None] hides the ["launch_time"]
    field: the creation time counts as unknown and, whenever the plan is
    computed, the node is not destroyed, however old its launch time. *)
Theorem created_none_hides_launch_time {L : Library}
  self cloud now config dry_run plan node :
  node_extra node !! "created" = Some VNone ->
  CleanAcceptanceInstances.start self cloud now config dry_run = Ok plan ->
  get_creation_time node = Ok None /\ ~ In node (destroyed plan).
Proof.
  intros Hc H.
  assert (Ht : get_creation_time node = Ok None).
  { unfold get_creation_time, dict_get. rewrite Hc. reflexivity. }
  split; [exact Ht |].
  apply start_nodes_Ok in H as (all_nodes & _ & _ & Hd & _).
  rewrite Hd. intros [_ Hs]%filter_In.
  rewrite (says_Ok _ _ _ _ (node_verdict_unknown (cutoff_of self now) node Ht)) in Hs.
  discriminate.
Qed.

Lemma created_none_hides_launch_time_witness :
  get_creation_time (L := reference_library) node_created_none = Ok None
  /\ ~ In node_created_none
       (destroyed {| destroyed := [node_3h]; kept := [node_created_none; node_2h] |}).
Proof.
  apply (@created_none_hides_launch_time reference_library example_instances
           (example_cloud [node_created_none; node_2h] [node_3h] [] [] [])
           example_now example_config false
           {| destroyed := [node_3h]; kept := [node_created_none; node_2h] |}
           node_created_none).
  - vm_compute. reflexivity.
  - vm_compute. reflexivity.
Defined.

(** X5.  Whenever the instance plan is computed, a listed node is destroyed
    if and only if it passes the name-and-state filter and its creation
    time is known, timezone-aware and strictly before [now - lag]; a listed
    node is kept if and only if it passes the filter and is not destroyed.
    A node created exactly [lag] ago is kept. *)
Theorem instance_destroyed_iff_older_than_cutoff {L : Library}
  self cloud now config dry_run plan all_nodes node :
  CleanAcceptanceInstances.start self cloud now config dry_run = Ok plan ->
  CleanAcceptanceInstances.list_all_nodes cloud [RackspaceDriver; EC2Driver 0] [] = Ok all_nodes ->
  In node all_nodes ->
  let test := CleanAcceptanceInstances.is_test_node (creator_prefixes self config) node in
  let old :=
    exists created offset,
      get_creation_time node = Ok (Some created)
      /\ utcoffset created = Some offset
      /\ wall created - offset < now - CleanAcceptanceInstances.lag self in
  (In node (destroyed plan) <-> test = true /\ old)
  /\ (In node (kept plan) <-> test = true /\ ~ old).
Proof.
  intros H Hlist Hin test old.
  apply start_nodes_Ok in H as (all_nodes' & Hlist' & Hall & Hd & Hk).
  rewrite Hlist in Hlist'. injection Hlist' as <-.
  rewrite Hd, Hk, !filter_In. fold test.
  subst old. rewrite <- node_verdict_true.
  split.
  - split.
    + intros [[_ Ht] Hs]. split; [exact Ht |].
      unfold says in Hs. destruct (node_verdict _ node) as [[] |]; try discriminate.
      reflexivity.
    + intros [Ht Hv]. split; [split; assumption |].
      rewrite (says_Ok _ _ _ _ Hv). reflexivity.
  - split.
    + intros [[_ Ht] Hs]. split; [exact Ht |]. intros Hv.
      rewrite (says_Ok _ _ _ _ Hv) in Hs. discriminate.
    + intros [Ht Hv]. split; [split; assumption |].
      rewrite List.Forall_forall in Hall.
      destruct (Hall node) as [b Hb]; [apply filter_In; split; assumption |].
      rewrite (says_Ok _ _ _ _ Hb). destruct b; [contradiction | reflexivity].
Qed.

Lemma instance_destroyed_iff_older_than_cutoff_witness :
  let test :=
    CleanAcceptanceInstances.is_test_node
      (creator_prefixes example_instances example_config) node_2h in
  let old :=
    exists created offset,
      get_creation_time (L := reference_library) node_2h = Ok (Some created)
      /\ utcoffset created = Some offset
      /\ wall created - offset
         < example_now - CleanAcceptanceInstances.lag example_instances in
  (In node_2h (destroyed {| destroyed := [node_3h]; kept := [node_created_none; node_2h] |})
   <-> test = true /\ old)
  /\ (In node_2h (kept {| destroyed := [node_3h]; kept := [node_created_none; node_2h] |})
      <-> test = true /\ ~ old).
Proof.
  apply (@instance_destroyed_iff_older_than_cutoff reference_library example_instances
           (example_cloud [node_created_none; node_2h] [node_3h] [] [] [])
           example_now example_config false
           {| destroyed := [node_3h]; kept := [node_created_none; node_2h] |}
           [node_created_none; node_2h; node_3h] node_2h).
  - vm_compute. reflexivity.
  - vm_compute. reflexivity.
  - simpl. tauto.
Defined.

(** ** When a plan is computed at all *)

Section PlanExists.
Context {L : Library}.

Lemma volume_verdict_returns self now maximum_age volume :
  returns (volume_verdict self (now_utc now) maximum_age volume)
  <-> exists created test,
        _get_volume_creation_time volume = Ok created
        /\ CleanVolumes._is_test_volume self volume = Ok test
        /\ (test = true ->
            exists d offset, created = VDatetime d /\ utcoffset d = Some offset).
Proof.
  unfold returns, volume_verdict. split.
  - intros [b Hb].
    apply bind_Ok_inv in Hb as (created & Hc & Hb).
    apply bind_Ok_inv in Hb as (test & Ht & Hb).
    exists created, test. split; [exact Hc |]. split; [exact Ht |].
    intros ->. apply bind_Ok_inv in Hb as (age & Ha & _).
    unfold datetime_sub_val, datetime_sub, now_utc in Ha. cbn [utcoffset wall] in Ha.
    destruct created as [| | | d |]; try discriminate.
    destruct (utcoffset d) as [offset |] eqn:Ho; [| discriminate].
    exists d, offset. auto.
  - intros (created & test & -> & -> & Hd). cbn [bind].
    destruct test; [| eexists; reflexivity].
    destruct (Hd eq_refl) as (d & offset & -> & Ho).
    unfold datetime_sub_val, datetime_sub, now_utc. cbn [utcoffset wall].
    rewrite Ho. cbn [bind]. eexists; reflexivity.
Qed.

Lemma split_by_returns_iff {A : Type} (verdict : A -> result bool) (xs : list A) :
  (exists p, split_by verdict xs [] [] = Ok p)
  <-> forall x, In x xs -> returns (verdict x).
Proof.
  rewrite <- List.Forall_forall. split.
  - intros [[ds ks] H]. apply split_by_Ok in H as (Hall & _). exact Hall.
  - intros Hall. eexists. apply split_by_total, Hall.
Qed.

End PlanExists.



(** X7.  Given the listed volumes, the volume plan is computed if and only
    if, for every listed volume, the creation time can be read, the
    ownership test returns, and, when the volume is test-owned, the
    creation time is a timezone-aware datetime.  The creation time of a
    volume that is not test-owned is read but never used. *)
Theorem volume_plan_computed_iff {L : Library} self now maximum_age volumes :
  (exists plan, CleanVolumes._filter_test_volumes self now maximum_age volumes = Ok plan)
  <-> (forall volume,
          In volume volumes ->
          exists created test,
            _get_volume_creation_time volume = Ok created
            /\ CleanVolumes._is_test_volume self volume = Ok test
            /\ (test = true ->
                exists d offset, created = VDatetime d /\ utcoffset d = Some offset)).
Proof.
  unfold CleanVolumes._filter_test_volumes.
  rewrite _filter_test_volumes_loop_split_by.
  transitivity (exists p,
                   split_by (volume_verdict self (now_utc now) maximum_age) volumes [] []
                   = Ok p).
  - split.
    + intros [plan H]. apply bind_Ok_inv in H as (p & Hp & _). exists p. exact Hp.
    + intros [p Hp]. rewrite Hp. eexists. reflexivity.
  - rewrite split_by_returns_iff. split.
    + intros H volume Hin. apply (volume_verdict_returns self now maximum_age volume).
      apply H, Hin.
    + intros H volume Hin. apply (volume_verdict_returns self now maximum_age volume).
      apply H, Hin.
Qed.

(** ** A provider that cannot be listed *)

Section FailFast.
Context {L : Library}.



End FailFast.



(** ** [do_exit] on an arbitrary list of plans *)

Section DoExit.

Lemma quiet_cons g groups : quiet (g :: groups) <-> destroy g = [] /\ quiet groups.
Proof.
  unfold quiet. split.
  - intros H. split; [apply H; left; reflexivity | intros g' Hin; apply H; right; exact Hin].
  - intros [Hg H] g' [<- | Hin]; [exact Hg | apply H, Hin].
Qed.

Lemma do_exit_quiet_prefix (groups : list VolumeActions) (rest : list action_group) :
  quiet groups -> do_exit (map VolumeActionsObject groups ++ rest) = do_exit rest.
Proof.
  induction groups as [| g groups IH]; intros Hq; [reflexivity |].
  apply quiet_cons in Hq as [Hg Hq].
  cbn [map app do_exit attr_destroy bind]. rewrite Hg. cbn [length].
  change (Z.of_nat 0 >? 0) with false. cbv iota. apply IH, Hq.
Qed.

Lemma do_exit_first_loud g (rest : list action_group) :
  destroy g <> [] -> do_exit (VolumeActionsObject g :: rest) = Raise (SystemExit 1).
Proof.
  intros Hg. cbn [do_exit attr_destroy bind].
  destruct (destroy g) as [| r rs]; [contradiction |]. cbn [length].
  replace (Z.of_nat (S (length rs)) >? 0) with true by (symmetry; apply Z.gtb_gt; lia).
  reflexivity.
Qed.

(** Every list of plans is a quiet prefix followed by nothing, by a plan
    that destroys something, or by a dictionary. *)
Lemma action_groups_shape (actions : list action_group) :
  exists groups,
    quiet groups
    /\ (actions = map VolumeActionsObject groups
        \/ (exists g rest,
               actions = (map VolumeActionsObject groups ++ VolumeActionsObject g :: rest)%list
               /\ destroy g <> [])
        \/ (exists d rest,
               actions = (map VolumeActionsObject groups ++ NodeActionsDict d :: rest)%list)).
Proof.
  induction actions as [| a actions (groups & Hq & IH)].
  - exists []. split; [intros g [] | left; reflexivity].
  - destruct a as [g | d].
    + destruct (destroy g) as [| r rs] eqn:Hg.
      * exists (g :: groups). split; [apply quiet_cons; auto |].
        destruct IH as [-> | [(g' & rest & -> & Hne) | (d & rest & ->)]].
        -- left. reflexivity.
        -- right. left. exists g', rest. auto.
        -- right. right. exists d, rest. reflexivity.
      * exists []. split; [intros g' [] |].
        right. left. exists g, actions. split; [reflexivity | congruence].
    + exists []. split; [intros g' [] |].
      right. right. exists d, actions. reflexivity.
Qed.

End DoExit.

(** X9.  [do_exit] stops at the first plan that is a dictionary or has
    something to destroy: it returns exactly when every plan is a
    [VolumeActions] with an empty [destroy]; it raises [SystemExit(1)]
    exactly when the first plan that is not such is a [VolumeActions] with a
    non-empty [destroy]; it raises [AttributeError] exactly when that plan is
    a dictionary.  The [keep] lists are never read. *)
Theorem do_exit_stops_at_first_loud_plan (actions : list action_group) :
  (do_exit actions = Ok tt
   <-> exists groups, quiet groups /\ actions = map VolumeActionsObject groups)
  /\ (do_exit actions = Raise (SystemExit 1)
      <-> exists groups g rest,
            quiet groups /\ destroy g <> []
            /\ actions = (map VolumeActionsObject groups ++ VolumeActionsObject g :: rest)%list)
  /\ (do_exit actions = Raise AttributeError
      <-> exists groups d rest,
            quiet groups
            /\ actions = (map VolumeActionsObject groups ++ NodeActionsDict d :: rest)%list).
Proof.
  assert (Hok : forall groups, quiet groups -> do_exit (map VolumeActionsObject groups) = Ok tt).
  { intros groups Hq. rewrite <- (app_nil_r (map _ groups)).
    rewrite (do_exit_quiet_prefix groups [] Hq). reflexivity. }
  assert (Hexit : forall groups g rest, quiet groups -> destroy g <> [] ->
            do_exit (map VolumeActionsObject groups ++ VolumeActionsObject g :: rest)
            = Raise (SystemExit 1)).
  { intros groups g rest Hq Hg. rewrite (do_exit_quiet_prefix groups _ Hq).
    apply do_exit_first_loud, Hg. }
  assert (Hattr : forall groups d rest, quiet groups ->
            do_exit (map VolumeActionsObject groups ++ NodeActionsDict d :: rest)
            = Raise AttributeError).
  { intros groups d rest Hq. rewrite (do_exit_quiet_prefix groups _ Hq). reflexivity. }
  destruct (action_groups_shape actions)
    as (groups & Hq & [-> | [(g & rest & -> & Hg) | (d & rest & ->)]]).
  - rewrite (Hok groups Hq). split; [| split]; split; try discriminate.
    + intros _. exists groups. auto.
    + reflexivity.
    + intros (gs & g & rest & Hq' & Hg & Heq).
      specialize (Hok groups Hq). rewrite Heq, (Hexit gs g rest Hq' Hg) in Hok.
      discriminate.
    + intros (gs & d & rest & Hq' & Heq).
      specialize (Hok groups Hq). rewrite Heq, (Hattr gs d rest Hq') in Hok.
      discriminate.
  - rewrite (Hexit groups g rest Hq Hg). split; [| split]; split; try discriminate.
    + intros (gs & Hq' & Heq).
      specialize (Hexit groups g rest Hq Hg). rewrite Heq, (Hok gs Hq') in Hexit.
      discriminate.
    + intros _. exists groups, g, rest. auto.
    + reflexivity.
    + intros (gs & d & rest' & Hq' & Heq).
      specialize (Hexit groups g rest Hq Hg). rewrite Heq, (Hattr gs d rest' Hq') in Hexit.
      discriminate.
  - rewrite (Hattr groups d rest Hq). split; [| split]; split; try discriminate.
    + intros (gs & Hq' & Heq).
      specialize (Hattr groups d rest Hq). rewrite Heq, (Hok gs Hq') in Hattr.
      discriminate.
    + intros (gs & g & rest' & Hq' & Hg & Heq).
      specialize (Hattr groups d rest Hq). rewrite Heq, (Hexit gs g rest' Hq' Hg) in Hattr.
      discriminate.
    + intros _. exists groups, d, rest. auto.
    + reflexivity.
Qed.

(** ** The executor on a list that holds a dictionary *)

Section ExecutorPrefix.
Variable cloud : Cloud.

Lemma destroy_each_app (front back : list StorageVolume) (w : World) :
  destroy_each cloud (front ++ back) w = destroy_each cloud back (destroy_each cloud front w).
Proof.
  revert w. induction front as [| r front IH]; intros w; [reflexivity |].
  cbn [app destroy_each]. apply IH.
Qed.

Lemma perform_actions_prefix (groups : list VolumeActions) (rest : list action_group)
  (w : World) :
  perform_actions cloud (map VolumeActionsObject groups ++ rest) w
  = perform_actions cloud rest (destroy_each cloud (concat (map destroy groups)) w).
Proof.
  revert w. induction groups as [| g groups IH]; intros w; [reflexivity |].
  cbn [map app perform_actions attr_destroy concat].
  rewrite IH, destroy_each_app. reflexivity.
Qed.

Lemma failures_none (prior resources : list StorageVolume) :
  (forall before r, In r resources -> returns (destroy_volume cloud before r)) ->
  failures cloud prior resources = [].
Proof.
  revert prior. induction resources as [| r rest IH]; intros prior H; [reflexivity |].
  cbn [failures]. destruct (H prior r (or_introl eq_refl)) as [ok ->].
  cbn [app]. apply IH. intros before r' Hin. apply H. right. exact Hin.
Qed.

End ExecutorPrefix.

(** X10.  [perform_actions] is not all-or-nothing: when the list holds a
    dictionary, the resources of the plans before it have already received
    their destroy calls when [AttributeError] is raised, and no resource of a
    later plan receives one. *)
Theorem perform_actions_stops_at_dictionary (cloud : Cloud) (groups : list VolumeActions)
  (d : NodeActions) (rest : list action_group) (w : World) :
  let outcome :=
    perform_actions cloud (map VolumeActionsObject groups ++ NodeActionsDict d :: rest) w in
  fst outcome = Raise AttributeError
  /\ attempts (snd outcome) = (attempts w ++ concat (map destroy groups))%list
  /\ snd outcome = snd (perform_actions cloud (map VolumeActionsObject groups) w).
Proof.
  intros outcome. subst outcome.
  rewrite perform_actions_prefix. cbn [perform_actions attr_destroy fst snd].
  rewrite perform_actions_VolumeActions, destroy_each_spec. cbn [attempts snd].
  repeat split.
Qed.

(** X11.  When every destroy call returns, the executor writes nothing to
    the log, and the keep lists play no part: the world it leaves is the
    initial one with the resources of the destroy lists appended to the
    calls made. *)
Theorem successful_destroys_log_nothing (cloud : Cloud) (groups : list VolumeActions)
  (w : World) :
  (forall before r,
      In r (concat (map destroy groups)) -> returns (destroy_volume cloud before r)) ->
  perform_actions cloud (map VolumeActionsObject groups) w
  = (Ok tt,
     {| attempts := attempts w ++ concat (map destroy groups); log := log w |}).
Proof.
  intros H. rewrite perform_actions_VolumeActions, destroy_each_spec.
  rewrite (failures_none cloud _ _ H), app_nil_r. reflexivity.
Qed.

Lemma successful_destroys_log_nothing_witness :
  perform_actions (example_cloud [] [] [] [] [])
    (map VolumeActionsObject
         [{| destroy := [volume_3h]; keep := [volume_1h] |};
          {| destroy := [volume_rackspace]; keep := [] |}])
    {| attempts := []; log := [] |}
  = (Ok tt,
     {| attempts :=
          [] ++ concat (map destroy [{| destroy := [volume_3h]; keep := [volume_1h] |};
                                     {| destroy := [volume_rackspace]; keep := [] |}]);
        log := [] |}).
Proof.
  apply (successful_destroys_log_nothing (example_cloud [] [] [] [] [])
           [{| destroy := [volume_3h]; keep := [volume_1h] |};
            {| destroy := [volume_rackspace]; keep := [] |}]
           {| attempts := []; log := [] |}).
  intros before r _. eexists. reflexivity.
Defined.

(** ** The command as a whole *)

(** X12.  The command never ends normally.  A usage error gives
    [SystemExit(1)]; once the instance plan is computed the command raises
    [TypeError] while printing when the plan holds a node, and
    [AttributeError] in [do_exit] when it holds none; the exit status is 1
    in each case. *)
Theorem command_never_ends_normally {L : Library} :
  (forall parsed cloud now, exists e, cleanup_cloud_resources_main parsed cloud now = Raise e)
  /\ (forall cloud now, cleanup_cloud_resources_main None cloud now = Raise (SystemExit 1))
  /\ (forall options cloud now plan,
        CleanAcceptanceInstances.start
          {| CleanAcceptanceInstances.lag := opt_instance_lag options;
             CleanAcceptanceInstances.prefixes := opt_instance_name_prefixes options |}
          cloud now (opt_config_file options) (opt_dry_run options) = Ok plan ->
        cleanup_cloud_resources_main (Some options) cloud now
        = Raise (match (destroyed plan ++ kept plan)%list with
                 | [] => AttributeError
                 | _ :: _ => TypeError
                 end)
        /\ exit_status (cleanup_cloud_resources_main (Some options) cloud now) = 1).
Proof.
  assert (Hplan : forall options cloud now plan,
            CleanAcceptanceInstances.start
              {| CleanAcceptanceInstances.lag := opt_instance_lag options;
                 CleanAcceptanceInstances.prefixes := opt_instance_name_prefixes options |}
              cloud now (opt_config_file options) (opt_dry_run options) = Ok plan ->
            cleanup_cloud_resources_main (Some options) cloud now
            = Raise (match (destroyed plan ++ kept plan)%list with
                     | [] => AttributeError
                     | _ :: _ => TypeError
                     end)).
  { intros options cloud now plan H. unfold cleanup_cloud_resources_main. rewrite H.
    unfold print_actions. cbn [bind _dumps _ActionEncoder].
    destruct (destroyed plan ++ kept plan)%list; reflexivity. }
  split; [| split].
  - intros [options |] cloud now; [| eexists; reflexivity].
    destruct (CleanAcceptanceInstances.start
                {| CleanAcceptanceInstances.lag := opt_instance_lag options;
                   CleanAcceptanceInstances.prefixes := opt_instance_name_prefixes options |}
                cloud now (opt_config_file options) (opt_dry_run options))
      as [plan | e] eqn:H.
    + rewrite (Hplan options cloud now plan H). eexists. reflexivity.
    + unfold cleanup_cloud_resources_main. rewrite H. eexists. reflexivity.
  - reflexivity.
  - intros options cloud now plan H. rewrite (Hplan options cloud now plan H).
    split; [reflexivity |]. destruct (destroyed plan ++ kept plan)%list; reflexivity.
Qed.

Lemma command_never_ends_normally_witness :
  cleanup_cloud_resources_main (L := reference_library) (Some example_options)
    (example_cloud [node_3h; node_foreign; node_undated] [node_1h; node_stopped] [] [] [])
    example_now
  = Raise (match ([node_3h] ++ [node_undated; node_1h])%list with
           | [] => AttributeError
           | _ :: _ => TypeError
           end)
  /\ exit_status
       (cleanup_cloud_resources_main (L := reference_library) (Some example_options)
          (example_cloud [node_3h; node_foreign; node_undated] [node_1h; node_stopped] [] [] [])
          example_now)
     = 1.
Proof.
  apply (proj2 (proj2 (@command_never_ends_normally reference_library))
           example_options
           (example_cloud [node_3h; node_foreign; node_undated] [node_1h; node_stopped] [] [] [])
           example_now
           {| destroyed := [node_3h]; kept := [node_undated; node_1h] |}).
  vm_compute. reflexivity.
Defined.

(** ** Name prefixes given on the command line *)

Lemma fold_opt_instance_name_prefix (given : list string) (self : OptionsDict) :
  let after := fold_left opt_instance_name_prefix given self in
  dict_dry_run after = dict_dry_run self
  /\ dict_config_file after = dict_config_file self
  /\ dict_volume_lag after = dict_volume_lag self
  /\ dict_instance_lag after = dict_instance_lag self
  /\ dict_marker after = dict_marker self
  /\ dict_instance_name_prefixes after
     = match given with
       | [] => dict_instance_name_prefixes self
       | _ :: _ =>
           Some (match dict_instance_name_prefixes self with
                 | Some before => before
                 | None => []
                 end ++ given)%list
       end.
Proof.
  revert self. induction given as [| p given IH]; intros self; cbn [fold_left].
  - repeat split.
  - destruct (IH (opt_instance_name_prefix self p)) as (H1 & H2 & H3 & H4 & H5 & H6).
    cbn zeta. rewrite H1, H2, H3, H4, H5, H6. cbn [opt_instance_name_prefix
      dict_dry_run dict_config_file dict_volume_lag dict_instance_lag dict_marker
      dict_instance_name_prefixes].
    repeat split. destruct given; [reflexivity |].
    rewrite <- app_assoc. reflexivity.
Qed.

(** X13.  Prefixes given with [--instance-name-prefix] replace the built-in
    ones instead of extending them: after the options are read, the prefix
    list is exactly the given prefixes, in the order given and with
    repetitions, and it is the built-in pair only when none was given.
    Reading fails (a usage error) exactly when no configuration file was
    given. *)
Theorem given_prefixes_replace_defaults (self : OptionsDict) (given : list string) :
  dict_instance_name_prefixes self = None ->
  (read_prefix_options self given = None <-> dict_config_file self = None)
  /\ (forall options,
         read_prefix_options self given = Some options ->
         opt_instance_name_prefixes options
         = match given with
           | [] => DEFAULT_INSTANCE_NAME_PREFIXES
           | _ :: _ => given
           end
         /\ dict_config_file self = Some (opt_config_file options)
         /\ opt_instance_lag options = dict_instance_lag self
         /\ opt_dry_run options = negb (dict_dry_run self =? 0)).
Proof.
  intros Hnone. unfold read_prefix_options, postOptions.
  destruct (fold_opt_instance_name_prefix given self) as (H1 & H2 & H3 & H4 & H5 & H6).
  rewrite H1, H2, H3, H4, H5, H6, Hnone.
  destruct (dict_config_file self) as [config |].
  - split; [split; discriminate |].
    intros options [= <-]. cbn [opt_instance_name_prefixes opt_config_file
      opt_instance_lag opt_dry_run].
    destruct given; repeat split.
  - split; [split; reflexivity |]. intros options [=].
Qed.

Lemma given_prefixes_replace_defaults_witness :
  (read_prefix_options (initial_options (Some example_config)) ["nightly-"; "nightly-"] = None
   <-> dict_config_file (initial_options (Some example_config)) = None)
  /\ (forall options,
         read_prefix_options (initial_options (Some example_config)) ["nightly-"; "nightly-"]
         = Some options ->
         opt_instance_name_prefixes options = ["nightly-"; "nightly-"]
         /\ dict_config_file (initial_options (Some example_config))
            = Some (opt_config_file options)
         /\ opt_instance_lag options = dict_instance_lag (initial_options (Some example_config))
         /\ opt_dry_run options
            = negb (dict_dry_run (initial_options (Some example_config)) =? 0)).
Proof.
  apply (given_prefixes_replace_defaults (initial_options (Some example_config))
           ["nightly-"; "nightly-"]).
  reflexivity.
Defined.

(** With a prefix of their own on the command line, nodes named after a
    built-in prefix are no longer candidates. *)
Example given_prefix_drops_builtin_candidates :
  option_map
    (fun options =>
       CleanAcceptanceInstances.is_test_node
         (creator_prefixes
            {| CleanAcceptanceInstances.lag := opt_instance_lag options;
               CleanAcceptanceInstances.prefixes := opt_instance_name_prefixes options |}
            (opt_config_file options))
         node_3h)
    (read_prefix_options (initial_options (Some example_config)) ["nightly-"])
  = Some false.
Proof. vm_compute. reflexivity. Qed.

(** ** Drivers built from the configuration document *)

Section DriverList.
Context {D : Type} {libcloud : Drivers.Libcloud D}.

Lemma lookup_overlay (base_ec2 extra : gmap string string) (field : string) :
  Drivers.overlay base_ec2 extra !! field
  = match extra !! field with
    | Some value => Some value
    | None => base_ec2 !! field
    end.
Proof.
  unfold Drivers.overlay. rewrite lookup_union.
  destruct (extra !! field), (base_ec2 !! field); reflexivity.
Qed.

Lemma get_ec2_driver_complete aws access_key secret_access_token region :
  aws !! "access_key" = Some access_key ->
  aws !! "secret_access_token" = Some secret_access_token ->
  aws !! "region" = Some region ->
  Drivers.get_ec2_driver aws
  = Drivers.get_driver (Drivers.EC2 access_key secret_access_token region).
Proof.
  intros Ha Hs Hr. unfold Drivers.get_ec2_driver, getitem. rewrite Ha, Hs, Hr. reflexivity.
Qed.

Lemma get_ec2_driver_overlay base_ec2 extra access_key secret_access_token region :
  base_ec2 !! "access_key" = Some access_key ->
  base_ec2 !! "secret_access_token" = Some secret_access_token ->
  base_ec2 !! "region" = Some region ->
  Drivers.get_ec2_driver (Drivers.overlay base_ec2 extra)
  = Drivers.get_driver
      (Drivers.EC2 (Drivers.overlaid extra "access_key" access_key)
                   (Drivers.overlaid extra "secret_access_token" secret_access_token)
                   (Drivers.overlaid extra "region" region)).
Proof.
  intros Ha Hs Hr. unfold Drivers.get_ec2_driver, getitem, Drivers.overlaid.
  rewrite !lookup_overlay, Ha, Hs, Hr.
  destruct (extra !! "access_key"), (extra !! "secret_access_token"), (extra !! "region");
    reflexivity.
Qed.


(** The loop returns exactly when the constructor returns for every
    overlay, and appends the drivers in order. *)
Lemma extra_drivers_Ok base_ec2 extras drivers all access_key secret_access_token region :
  base_ec2 !! "access_key" = Some access_key ->
  base_ec2 !! "secret_access_token" = Some secret_access_token ->
  base_ec2 !! "region" = Some region ->
  Drivers.extra_drivers base_ec2 extras drivers = Ok all
  <-> exists built,
        all = (drivers ++ built)%list
        /\ Forall2
             (fun extra driver =>
                Drivers.get_driver
                  (Drivers.EC2 (Drivers.overlaid extra "access_key" access_key)
                               (Drivers.overlaid extra "secret_access_token"
                                                 secret_access_token)
                               (Drivers.overlaid extra "region" region))
                = Ok driver)
             extras built.
Proof.
  intros Ha Hs Hr. revert drivers.
  induction extras as [| extra rest IH]; intros drivers; cbn [Drivers.extra_drivers].
  - split.
    + intros [= <-]. exists []. rewrite app_nil_r. split; [reflexivity | constructor].
    + intros (built & -> & Hall). inversion Hall. rewrite app_nil_r. reflexivity.
  - rewrite (get_ec2_driver_overlay _ _ _ _ _ Ha Hs Hr). split.
    + intros H. apply bind_Ok_inv in H as (driver & Hd & H).
      apply IH in H as (built & -> & Hall).
      exists (driver :: built). rewrite <- app_assoc.
      split; [reflexivity | constructor; assumption].
    + intros (built & -> & Hall). inversion Hall as [| extra' driver rest' built' Hd Hall']; subst.
      rewrite Hd. cbn [bind]. apply IH. exists built'.
      rewrite <- app_assoc. split; [reflexivity | assumption].
Qed.

End DriverList.

(** X14.  When the Rackspace section and the base AWS section are complete,
    driver construction returns exactly when every constructor call
    returns.  The calls are: Rackspace with its three fields, EC2 with the
    base account's fields, then one EC2 call per overlay in order, each with
    the overlay's fields where it has them and the base account's
    otherwise (overlays do not accumulate).  The list returned holds their
    drivers in that order, and is as long as the one the planner
    enumerates. *)
Theorem overlays_override_base_fields {D : Type} {libcloud : Drivers.Libcloud D}
  (config : Drivers.document) (rackspace_fields base_ec2 : gmap string string)
  (username key rackspace_region access_key secret_access_token region : string)
  (drivers : list D) :
  Drivers.rackspace config = Some rackspace_fields ->
  Drivers.aws config = Some base_ec2 ->
  rackspace_fields !! "username" = Some username ->
  rackspace_fields !! "key" = Some key ->
  rackspace_fields !! "region" = Some rackspace_region ->
  base_ec2 !! "access_key" = Some access_key ->
  base_ec2 !! "secret_access_token" = Some secret_access_token ->
  base_ec2 !! "region" = Some region ->
  let extras :=
    match Drivers.extra_aws_overlays config with Some extras => extras | None => [] end in
  (Drivers._get_cloud_drivers config = Ok drivers
   <-> exists rackspace_driver ec2_driver built,
         drivers = rackspace_driver :: ec2_driver :: built
         /\ Drivers.get_driver (Drivers.Rackspace username key rackspace_region)
            = Ok rackspace_driver
         /\ Drivers.get_driver (Drivers.EC2 access_key secret_access_token region)
            = Ok ec2_driver
         /\ Forall2
              (fun extra driver =>
                 Drivers.get_driver
                   (Drivers.EC2 (Drivers.overlaid extra "access_key" access_key)
                                (Drivers.overlaid extra "secret_access_token"
                                                  secret_access_token)
                                (Drivers.overlaid extra "region" region))
                 = Ok driver)
              extras built)
  /\ (Drivers._get_cloud_drivers config = Ok drivers ->
      forall creator,
        length drivers
        = length (CleanVolumes._get_cloud_drivers
                    {| metadata_creator := creator; extra_aws := length extras |})).
Proof.
  intros Hr Hb Hu Hk Hrr Ha Hs Hg extras.
  assert (Hiff :
    Drivers._get_cloud_drivers config = Ok drivers
    <-> exists rackspace_driver ec2_driver built,
          drivers = rackspace_driver :: ec2_driver :: built
          /\ Drivers.get_driver (Drivers.Rackspace username key rackspace_region)
             = Ok rackspace_driver
          /\ Drivers.get_driver (Drivers.EC2 access_key secret_access_token region)
             = Ok ec2_driver
          /\ Forall2
               (fun extra driver =>
                  Drivers.get_driver
                    (Drivers.EC2 (Drivers.overlaid extra "access_key" access_key)
                                 (Drivers.overlaid extra "secret_access_token"
                                                   secret_access_token)
                                 (Drivers.overlaid extra "region" region))
                  = Ok driver)
               extras built).
  { unfold Drivers._get_cloud_drivers, Drivers.section. rewrite Hr, Hb. cbn [bind].
    rewrite (get_ec2_driver_complete _ _ _ _ Ha Hs Hg).
    unfold Drivers.get_rackspace_driver, getitem. rewrite Hu, Hk, Hrr. cbn [bind].
    fold extras. split.
    - intros H. apply bind_Ok_inv in H as (rd & Hrd & H).
      apply bind_Ok_inv in H as (ed & Hed & H).
      apply (extra_drivers_Ok _ _ _ _ _ _ _ Ha Hs Hg) in H as (built & -> & Hall).
      exists rd, ed, built. auto.
    - intros (rd & ed & built & -> & Hrd & Hed & Hall).
      rewrite Hrd, Hed. cbn [bind].
      apply (extra_drivers_Ok _ _ _ _ _ _ _ Ha Hs Hg). exists built. auto. }
  split; [exact Hiff |].
  intros H creator. apply Hiff in H as (rd & ed & built & -> & _ & _ & Hall).
  apply Forall2_length in Hall.
  unfold CleanVolumes._get_cloud_drivers. cbn [length app extra_aws].
  rewrite length_map, length_seq, Hall. reflexivity.
Qed.

Lemma overlays_override_base_fields_witness :
  Drivers._get_cloud_drivers (libcloud := Drivers.example_libcloud) example_document
  = Ok [Drivers.Rackspace "ops" "rk" "dfw";
        Drivers.EC2 "ak" "st" "us-west-1";
        Drivers.EC2 "ak" "st" "us-east-1";
        Drivers.EC2 "ak2" "st2" "us-west-1"]
  /\ forall creator,
       length [Drivers.Rackspace "ops" "rk" "dfw";
               Drivers.EC2 "ak" "st" "us-west-1";
               Drivers.EC2 "ak" "st" "us-east-1";
               Drivers.EC2 "ak2" "st2" "us-west-1"]
       = length (CleanVolumes._get_cloud_drivers
                   {| metadata_creator := creator; extra_aws := 2 |}).
Proof.
  destruct (@overlays_override_base_fields _ Drivers.example_libcloud example_document
              {[ "username" := "ops"; "key" := "rk"; "region" := "dfw" ]}
              {[ "access_key" := "ak"; "secret_access_token" := "st";
                 "region" := "us-west-1" ]}
              "ops" "rk" "dfw" "ak" "st" "us-west-1"
              [Drivers.Rackspace "ops" "rk" "dfw";
               Drivers.EC2 "ak" "st" "us-west-1";
               Drivers.EC2 "ak" "st" "us-east-1";
               Drivers.EC2 "ak2" "st2" "us-west-1"]
              eq_refl eq_refl eq_refl eq_refl eq_refl eq_refl eq_refl eq_refl)
    as [Hiff Hlen].
  assert (H : Drivers._get_cloud_drivers (libcloud := Drivers.example_libcloud)
                example_document
              = Ok [Drivers.Rackspace "ops" "rk" "dfw";
                    Drivers.EC2 "ak" "st" "us-west-1";
                    Drivers.EC2 "ak" "st" "us-east-1";
                    Drivers.EC2 "ak2" "st2" "us-west-1"]).
  { apply Hiff.
    exists (Drivers.Rackspace "ops" "rk" "dfw"), (Drivers.EC2 "ak" "st" "us-west-1"),
      [Drivers.EC2 "ak" "st" "us-east-1"; Drivers.EC2 "ak2" "st2" "us-west-1"].
    split; [reflexivity |]. split; [reflexivity |]. split; [reflexivity |].
    repeat constructor. }
  split; [exact H | exact (Hlen H)].
Defined.

(** The documents of the examples: the complete one builds four drivers; an
    overlay that names an unknown region makes the constructor, and with it
    the whole construction, raise. *)
Example _get_cloud_drivers_examples :
  Drivers._get_cloud_drivers (libcloud := Drivers.example_libcloud) example_document
  = Ok [Drivers.Rackspace "ops" "rk" "dfw";
        Drivers.EC2 "ak" "st" "us-west-1";
        Drivers.EC2 "ak" "st" "us-east-1";
        Drivers.EC2 "ak2" "st2" "us-west-1"]
  /\ Drivers._get_cloud_drivers (libcloud := Drivers.example_libcloud)
       {| Drivers.rackspace := Drivers.rackspace example_document;
          Drivers.aws := Drivers.aws example_document;
          Drivers.extra_aws_overlays := Some [ {[ "region" := "no-such-region" ]} ] |}
     = Raise ValueError.
Proof. split; vm_compute; reflexivity. Qed.



(** ** The exit signal of a volume plan *)

(** X16.  Planner and [do_exit] composed on the volume path: for a computed
    volume plan, [do_exit] raises [SystemExit(1)] if and only if some listed
    volume is test-owned and older than the lag, and returns otherwise. *)
Theorem volume_plan_exit_signal {L : Library} self now maximum_age volumes plan :
  CleanVolumes._filter_test_volumes self now maximum_age volumes = Ok plan ->
  (do_exit [VolumeActionsObject plan] = Raise (SystemExit 1)
   <-> exists v, In v volumes /\ overdue self now maximum_age v)
  /\ (do_exit [VolumeActionsObject plan] = Ok tt
      <-> forall v, In v volumes -> ~ overdue self now maximum_age v).
Proof.
  intros H. apply _filter_test_volumes_Ok in H as (_ & Hd & _).
  assert (Hin : forall v, In v (destroy plan)
                          <-> In v volumes /\ overdue self now maximum_age v).
  { intros v. rewrite Hd, filter_In, <- volume_verdict_true. unfold says.
    destruct (volume_verdict self (now_utc now) maximum_age v) as [[] |]; cbn [Bool.eqb];
      split; intros [H1 H2]; split; try assumption; try reflexivity; discriminate. }
  cbn [do_exit attr_destroy bind].
  destruct (destroy plan) as [| r rs]; cbn [length].
  - change (Z.of_nat 0 >? 0) with false. cbv iota. split; split; try discriminate.
    + intros (v & Hv). apply Hin in Hv. destruct Hv.
    + intros _ v Hv Ho. destruct (proj2 (Hin v) (conj Hv Ho)).
    + reflexivity.
  - replace (Z.of_nat (S (length rs)) >? 0) with true by (symmetry; apply Z.gtb_gt; lia).
    cbv iota. split; split; try discriminate.
    + intros _. exists r. apply Hin. left. reflexivity.
    + reflexivity.
    + intros Hall. destruct (proj1 (Hin r) (or_introl eq_refl)) as [Hv Ho].
      destruct (Hall r Hv Ho).
Qed.

Lemma volume_plan_exit_signal_witness :
  (do_exit [VolumeActionsObject {| destroy := [volume_3h]; keep := [volume_1h; volume_other] |}]
   = Raise (SystemExit 1)
   <-> exists v,
         In v [volume_3h; volume_1h; volume_other]
         /\ overdue (L := reference_library) example_volumes example_now (minutes 120) v)
  /\ (do_exit [VolumeActionsObject {| destroy := [volume_3h];
                                      keep := [volume_1h; volume_other] |}]
      = Ok tt
      <-> forall v,
            In v [volume_3h; volume_1h; volume_other] ->
            ~ overdue (L := reference_library) example_volumes example_now (minutes 120) v).
Proof.
  apply (@volume_plan_exit_signal reference_library example_volumes example_now
           (minutes 120) [volume_3h; volume_1h; volume_other]
           {| destroy := [volume_3h]; keep := [volume_1h; volume_other] |}).
  vm_compute. reflexivity.
Defined.
